(** * Home.py: the Streamlit page of the SAR image colorisation demo

    The page is a single script that Streamlit runs from top to bottom on
    every user interaction.  It is embedded here as a function from the
    values the widgets hand back (uploads, button, slider) and the session
    state left by the previous run to the calls the run makes, the new
    session state and the way the run ends (normally or with an exception
    that reaches Streamlit).

    The module [image_colorization] is not part of the page: it is an
    interface whose functions may return or raise.  Streamlit's own calls are
    taken to return normally; what they are given is recorded.  Of
    Matplotlib, [imshow] raises on what is not an image.

    Numbers are IEEE 754 binary64 values with the operations of
    [SpecFloat], rounding to nearest even: the [float] of Python and the
    default element type of NumPy.

    Contents: the numbers, arrays and values of the page; the script; the
    observations made on a run; facts of binary64 arithmetic; the runs of
    the script, piece by piece; the properties of the page. *)

From Stdlib Require Import ZArith SpecFloat.
From Stdlib.Strings Require Import Byte.
From stdpp Require Import gmap strings list fin_maps.

Open Scope Z_scope.

(** ** Python floats and NumPy float64 elements: IEEE 754 binary64 *)

Module Float64.

Definition prec : Z := 53.
Definition emax : Z := 1024.

Abbreviation float64 := spec_float.

Definition valid (x : float64) : bool := valid_binary prec emax x.

Definition add : float64 -> float64 -> float64 := SFadd prec emax.
Definition sub : float64 -> float64 -> float64 := SFsub prec emax.
Definition mul : float64 -> float64 -> float64 := SFmul prec emax.
Definition div : float64 -> float64 -> float64 := SFdiv prec emax.

(** The comparison [==] of Python and NumPy: numeric, so that
    [0.0 == -0.0] and [nan != nan]. *)
Definition eqb : float64 -> float64 -> bool := SFeqb.
Definition leb : float64 -> float64 -> bool := SFleb.

(** A Python [int] used where a float is expected. *)
Definition of_int (z : Z) : float64 := binary_normalize prec emax z 0 false.

(** The float nearest to [m * 2^e]. *)
Definition of_scaled (m e : Z) : float64 := binary_normalize prec emax m e false.

(** The literals [0.0], [1.0] and [0.5]. *)
Definition zero : float64 := S754_zero false.
Definition one : float64 := S754_finite false 4503599627370496 (-52).
Definition half : float64 := S754_finite false 4503599627370496 (-53).

(** The integers [-1] and [2] as floats. *)
Definition minus_one : float64 := S754_finite true 4503599627370496 (-52).
Definition two : float64 := S754_finite false 4503599627370496 (-51).

Definition is_finite (x : float64) : bool :=
  match x with
  | S754_zero _ | S754_finite _ _ _ => true
  | S754_infinity _ | S754_nan => false
  end.

(** Truth value of a float: everything but a zero, [nan] included. *)
Definition truth (x : float64) : bool :=
  match x with
  | S754_zero _ => false
  | _ => true
  end.

(** The integer part, rounded toward zero. *)
Definition trunc (x : float64) : Z :=
  match x with
  | S754_finite s m e => cond_Zopp s (Z.shiftl (Z.pos m) e)
  | _ => 0
  end.

End Float64.

Import Float64.

(** ** NumPy arrays *)

(** An array of floats is its shape and its elements in C order. *)
Record ndarray := mk_ndarray {
  shape : list nat;
  data : list float64
}.

Definition map_array (f : float64 -> float64) (a : ndarray) : ndarray :=
  mk_ndarray (shape a) (map f (data a)).

(** Two lists combined element by element. *)
Fixpoint zip_data (f : float64 -> float64 -> float64) (l k : list float64)
  : list float64 :=
  match l, k with
  | x :: l', y :: k' => f x y :: zip_data f l' k'
  | _, _ => []
  end.

(** [a + c], [a / c], [a * c] with a Python number [c]: elementwise. *)
Definition add_scalar (a : ndarray) (c : float64) : ndarray :=
  map_array (fun x => add x c) a.
Definition div_scalar (a : ndarray) (c : float64) : ndarray :=
  map_array (fun x => div x c) a.
Definition mul_scalar (a : ndarray) (c : float64) : ndarray :=
  map_array (fun x => mul x c) a.

(** The number of elements of an array of shape [sh]. *)
Definition size_of (sh : list nat) : nat := foldr Nat.mul 1%nat sh.

Definition well_formed (a : ndarray) : Prop :=
  length (data a) = size_of (shape a).

(** NumPy's broadcasting.  Shapes are aligned at their last dimension, so
    shapes and indices are handled last dimension first: two extents go
    together when they are equal or one of them is 1. *)
Fixpoint broadcast_rev (s1 s2 : list nat) : option (list nat) :=
  match s1, s2 with
  | [], s | s, [] => Some s
  | d1 :: s1', d2 :: s2' =>
      match broadcast_rev s1' s2' with
      | Some s =>
          if (d1 =? d2)%nat then Some (d1 :: s)
          else if (d1 =? 1)%nat then Some (d2 :: s)
          else if (d2 =? 1)%nat then Some (d1 :: s)
          else None
      | None => None
      end
  end.

Definition broadcast_shapes (s1 s2 : list nat) : option (list nat) :=
  reverse <$> broadcast_rev (reverse s1) (reverse s2).

(** The index of the element at position [p] of an array, and back. *)
Fixpoint unravel_rev (rsh : list nat) (p : nat) : list nat :=
  match rsh with
  | [] => []
  | d :: rsh' => (p mod d)%nat :: unravel_rev rsh' (p / d)%nat
  end.

Fixpoint ravel_rev (rsh ridx : list nat) : nat :=
  match rsh, ridx with
  | d :: rsh', i :: ridx' => (i + d * ravel_rev rsh' ridx')%nat
  | _, _ => 0%nat
  end.

(** The element of [a] that position [p] of a broadcast result of shape
    [sh] reads: along a dimension of extent 1 the index is 0. *)
Definition broadcast_item (a : ndarray) (sh : list nat) (p : nat) : float64 :=
  let ridx := unravel_rev (reverse sh) p in
  let ridx_a :=
    zip_with (fun d i => if (d =? 1)%nat then 0%nat else i)
      (reverse (shape a)) ridx in
  nth (ravel_rev (reverse (shape a)) ridx_a) (data a) S754_nan.

(** [f] applied element by element to two arrays, if their shapes go
    together. *)
Definition broadcast (f : float64 -> float64 -> float64) (a b : ndarray)
  : option ndarray :=
  sh ← broadcast_shapes (shape a) (shape b);
  Some (mk_ndarray sh
          (map (fun p => f (broadcast_item a sh p) (broadcast_item b sh p))
               (seq 0 (size_of sh)))).

(** [a.astype(np.uint8)] on one element: the C conversion of a double to an
    unsigned char.  A value whose integer part lies in [0, 256) becomes that
    integer part; C leaves every other value open.  On x86-64 the
    conversion goes through the instruction that converts a double to a
    32-bit integer and keeps the low byte: an integer part in the range of
    int32 is reduced modulo 256, and everything else, [nan] and the
    infinities included, gives the low byte of [-2^31], which is 0. *)
Definition astype_uint8 (x : float64) : Z :=
  let n := trunc x in
  if (- 2 ^ 31 <=? n) && (n <? 2 ^ 31) then n mod 256 else 0.

(** [tobytes()] on one [uint8] element. *)
Definition byte_of_uint8 (z : Z) : byte :=
  match Byte.of_N (Z.to_N z) with
  | Some b => b
  | None => x00
  end.

(** ** Python values and exceptions *)

Inductive exn :=
  | AttributeError
  | TypeError
  | ValueError
  | Error (msg : string).

Inductive result (A : Type) :=
  | Ok (a : A)
  | Raise (e : exn).
Arguments Ok {A} a.
Arguments Raise {A} e.

(** What the page keeps in [st.session_state]. *)
Inductive pyval :=
  | PNone
  | PBool (b : bool)
  | PArr (a : ndarray).

(** The operand of an arithmetic expression: a Python number or an array. *)
Inductive npval :=
  | NpScalar (x : float64)
  | NpArray (a : ndarray).

(** [bool(v)], as [if v] and [not v] compute it.  NumPy refuses arrays of
    more than one element; an empty array is false. *)
Definition truth_value (v : pyval) : result bool :=
  match v with
  | PNone => Ok false
  | PBool b => Ok b
  | PArr a =>
      match data a with
      | [] => Ok false
      | [x] => Ok (truth x)
      | _ => Raise ValueError
      end
  end.

(** A stored value used in [v + 1]: [None] has no [+]; a [bool] is the
    integer 0 or 1. *)
Definition operand (v : pyval) : result npval :=
  match v with
  | PNone => Raise TypeError
  | PBool b => Ok (NpScalar (of_int (if b then 1 else 0)))
  | PArr a => Ok (NpArray a)
  end.

Definition np_map (f : float64 -> float64) (v : npval) : npval :=
  match v with
  | NpScalar x => NpScalar (f x)
  | NpArray a => NpArray (map_array f a)
  end.

(** [v + w].  Two arrays are broadcast against each other; NumPy raises
    [ValueError] when their shapes do not go together. *)
Definition np_add (v w : npval) : result npval :=
  match v, w with
  | NpScalar x, NpScalar y => Ok (NpScalar (add x y))
  | NpScalar x, NpArray b => Ok (NpArray (map_array (fun y => add x y) b))
  | NpArray a, NpScalar y => Ok (NpArray (map_array (fun x => add x y) a))
  | NpArray a, NpArray b =>
      match broadcast add a b with
      | Some c => Ok (NpArray c)
      | None => Raise ValueError
      end
  end.

(** [v + c], [v / c] and [v * c] with a Python number [c]. *)
Definition np_add_scalar (v : npval) (c : float64) : npval :=
  np_map (fun x => add x c) v.
Definition np_div_scalar (v : npval) (c : float64) : npval :=
  np_map (fun x => div x c) v.
Definition np_mul_scalar (v : npval) (c : float64) : npval :=
  np_map (fun x => mul x c) v.

(** The shapes Matplotlib takes as an image: (M, N), and (M, N, 1),
    (M, N, 3) or (M, N, 4). *)
Definition image_shape (sh : list nat) : bool :=
  match sh with
  | [_; _] => true
  | [_; _; c] => (c =? 1)%nat || (c =? 3)%nat || (c =? 4)%nat
  | _ => false
  end.

(** [ax.imshow(img)]: Matplotlib raises [TypeError] on a number and on an
    array whose shape is not that of an image. *)
Definition imshow (img : npval) : result unit :=
  match img with
  | NpScalar _ => Raise TypeError
  | NpArray a => if image_shape (shape a) then Ok tt else Raise TypeError
  end.

(** ** The external module [image_colorization] *)

(** What [st.file_uploader] hands back for an uploaded file. *)
Record UploadedFile := mk_UploadedFile {
  name : string;
  getvalue : list byte
}.

(** Modelled from the spec: the module [image_colorization] that [Home.py]
    imports is not among the sources.  Its interface is taken as a
    parameter: [process_images(src, tar)] returning
    [(figure, ssim, psnr, src_array, gen_array, tar_array)] and the four
    plotting helpers, each of which may raise instead.  [Figure] is the type
    of the matplotlib figures the module hands back.  [plot_histogram] draws
    on the axes it is given (here: their number in the row of subplots) and
    returns nothing. *)
Class image_colorization := {
  Figure : Type;
  process_images :
    UploadedFile -> UploadedFile ->
    result (Figure * float64 * float64 * ndarray * ndarray * ndarray);
  plot_histogram : ndarray -> nat -> string -> result unit;
  plot_difference_map : ndarray -> ndarray -> result (Figure * float64);
  plot_color_channels : ndarray -> string -> result Figure;
  plot_lab_channels : ndarray -> string -> result Figure
}.

(** ** What a run of the page produces *)

(** An f-string: literal text and formatted fields. *)
Inductive piece :=
  | Text (s : string)
  | Field (x : float64) (format_spec : string).

Definition fstring : Type := list piece.

(** What is drawn on the axes of a figure the page builds itself. *)
Inductive artist :=
  | Histogram (img : ndarray) (title : string)
  | Imshow (img : npval)
  | AxisOff.

Inductive figure `{image_colorization} :=
  | External (f : Figure)
  | Subplots (nrows ncols : nat) (figsize : nat * nat) (axes : list (list artist)).

Inductive col_spec :=
  | Equal (n : nat)
  | Widths (ws : list nat).

Inductive container :=
  | Column (i : nat)
  | Spinner (text : string).

Inductive download_data :=
  | FileData (f : UploadedFile)
  | BytesData (b : list byte).

(** The calls a run makes, in the order it makes them: every Streamlit call
    with its arguments, and the call that runs the model. *)
Inductive event `{image_colorization} :=
  | SetPageConfig (page_title layout : string)
  | Title (body : string)
  | SidebarHeader (body : string)
  | SidebarInfo (body : string)
  | SidebarMarkdown (body : string)
  | Columns (spec : col_spec)
  | Enter (c : container)
  | Leave (c : container)
  | FileUploader (label : string) (type : list string)
  | Button (label : string)
  | ProcessImages (src tar : UploadedFile)
  | Pyplot (fig : figure)
  | Subheader (body : string)
  | Metric (label : string) (value : fstring)
  | Info (body : string)
  | Write (body : fstring)
  | DownloadButton (label : string) (data : download_data) (file_name mime : string)
  | Slider (label : string) (min_value max_value value : float64)
  | Markdown (body : string).

(** A piece of the script: it reads and writes the session state, adds to
    the trace, and returns or raises.  What was written and traced before an
    exception stays. *)
Definition script `{image_colorization} (A : Type) : Type :=
  gmap string pyval -> result A * gmap string pyval * list event.

Section Script.
Context `{image_colorization}.

Definition ret {A} (a : A) : script A := fun s => (Ok a, s, []).

Definition bind {A B} (m : script A) (k : A -> script B) : script B :=
  fun s =>
    match m s with
    | (Ok a, s1, t1) =>
        match k a s1 with
        | (r, s2, t2) => (r, s2, t1 ++ t2)
        end
    | (Raise e, s1, t1) => (Raise e, s1, t1)
    end.

(** A call that returns or raises and touches nothing else. *)
Definition call {A} (r : result A) : script A := fun s => (r, s, []).

Definition emit (e : event) : script unit := fun s => (Ok tt, s, [e]).

(** [k in st.session_state], [st.session_state.k] and
    [st.session_state.k = v]. *)
Definition contains (k : string) : script bool :=
  fun s => (Ok (bool_decide (is_Some (s !! k))), s, []).

Definition getattr (k : string) : script pyval :=
  fun s =>
    match s !! k with
    | Some v => (Ok v, s, [])
    | None => (Raise AttributeError, s, [])
    end.

Definition setattr (k : string) (v : pyval) : script unit :=
  fun s => (Ok tt, <[k := v]> s, []).

(** [with c: body]: the block is left on the way out of an exception too. *)
Definition with_ {A} (c : container) (body : script A) : script A :=
  fun s =>
    match body s with
    | (r, s1, t1) => (r, s1, Enter c :: t1 ++ [Leave c])
    end.

End Script.

Declare Scope script_scope.
Delimit Scope script_scope with script.

Notation "x ← y ; z" := (bind y (fun x => z))
  (at level 20, y at level 100, z at level 200, only parsing) : script_scope.
Notation "' x ← y ; z" := (bind y (fun x => z))
  (at level 20, x pattern, y at level 100, z at level 200, only parsing)
  : script_scope.
Notation "x ;; z" := (bind x (fun _ => z))
  (at level 100, z at level 200, only parsing, right associativity)
  : script_scope.

(** ** The page *)

(** What the widgets hand back in one run: the two uploads (or [None]),
    whether the button was clicked, and the position of the slider. *)
Record widgets := mk_widgets {
  uploaded_src : option UploadedFile;
  uploaded_tar : option UploadedFile;
  button_clicked : bool;
  slider_value : float64
}.

(** The longer texts of the page. *)
Definition about_text : string :=
  "This application demonstrates the capabilities of our SAR image colorization model. Upload a source (grayscale) image and a target (color) image to see the results and analysis.".
Definition how_to_use_text : string :=
  "
    1. Upload a source (grayscale) image
    2. Upload a target (color) image
    3. Click 'Process Images'
    4. Explore the results and analysis
    ".
Definition ssim_text : string :=
  "SSIM (Structural Similarity Index) measures the perceived similarity between two images. Values range from -1 to 1, where 1 indicates perfect similarity.".
Definition psnr_text : string :=
  "PSNR (Peak Signal-to-Noise Ratio) measures the quality of the reconstructed image compared to the original. Higher values indicate better quality.".
Definition histograms_text : string :=
  "Color histograms show the distribution of pixel intensities for each color channel (Red, Green, Blue).".
Definition difference_map_text : string :=
  "
                The Difference Map shows areas where the generated image differs from the target image.
                - Brighter areas indicate larger differences.
                - Darker areas indicate smaller differences.
                - The color scale is square-root scaled to enhance visibility of small differences.
                ".
Definition mean_difference_text : string :=
  "The Mean Difference provides an overall measure of how much the generated image differs from the target. Lower values indicate better performance.".
Definition color_channels_text : string :=
  "These visualizations show the intensity of each color channel (Red, Green, Blue) separately.".
Definition lab_text : string :=
  "
            The LAB color space represents colors in a way that approximates human vision:
            - L: Lightness (0 = black, 100 = white)
            - a: Green-Red axis (negative = green, positive = red)
            - b: Blue-Yellow axis (negative = blue, positive = yellow)
            ".
Definition upload_prompt : string :=
  "Please upload both source and target images to begin the analysis.".

Section Page.
Context `{image_colorization}.
Local Open Scope script_scope.

(** *** Streamlit calls *)

Definition st_set_page_config (page_title layout : string) : script unit :=
  emit (SetPageConfig page_title layout).
Definition st_title (body : string) : script unit := emit (Title body).
Definition st_sidebar_header (body : string) : script unit :=
  emit (SidebarHeader body).
Definition st_sidebar_info (body : string) : script unit :=
  emit (SidebarInfo body).
Definition st_sidebar_markdown (body : string) : script unit :=
  emit (SidebarMarkdown body).
Definition st_columns (spec : col_spec) : script unit := emit (Columns spec).
Definition st_pyplot (fig : figure) : script unit := emit (Pyplot fig).
Definition st_subheader (body : string) : script unit := emit (Subheader body).
Definition st_metric (label : string) (value : fstring) : script unit :=
  emit (Metric label value).
Definition st_info (body : string) : script unit := emit (Info body).
Definition st_write (body : fstring) : script unit := emit (Write body).
Definition st_markdown (body : string) : script unit := emit (Markdown body).
Definition st_download_button (label : string) (data : download_data)
    (file_name mime : string) : script unit :=
  emit (DownloadButton label data file_name mime).

(** The widgets that hand a value back; [returned] is that value. *)
Definition st_file_uploader (label : string) (type : list string)
    (returned : option UploadedFile) : script (option UploadedFile) :=
  emit (FileUploader label type);; ret returned.
Definition st_button (label : string) (returned : bool) : script bool :=
  emit (Button label);; ret returned.
Definition st_slider (label : string) (min_value max_value value : float64)
    (returned : float64) : script float64 :=
  emit (Slider label min_value max_value value);; ret returned.

(** *** Lines 12-19: [if k not in st.session_state: st.session_state.k = v] *)
Definition if_not_in (k : string) (v : pyval) : script unit :=
  present ← contains k;
  if present then ret tt else setattr k v.

(** Lines 12-19. *)
Definition initialise : script unit :=
  if_not_in "processed" (PBool false);;
  if_not_in "src" PNone;;
  if_not_in "gen" PNone;;
  if_not_in "tar" PNone.

(** [(a + 1) / 2] *)
Definition rescale (a : ndarray) : ndarray :=
  div_scalar (add_scalar a (of_int 1)) (of_int 2).

(** Lines 122-123. *)
Definition gen_img (gen : ndarray) : list Z :=
  map astype_uint8 (data (mul_scalar (rescale gen) (of_int 255))).
Definition gen_img_bytes (gen : ndarray) : list byte :=
  map byte_of_uint8 (gen_img gen).

(** *** Lines 57-136: what is rendered once the model has returned *)
Definition render_results (src_image tar_image : UploadedFile)
    (fig : Figure) (ssim_value psnr_value : float64) (src gen tar : ndarray)
  : script unit :=
  st_pyplot (External fig);;

  st_subheader "Accuracy Metrics";;
  st_columns (Equal 2);;
  with_ (Column 1)
    (st_metric "SSIM" [Field ssim_value ".4f"];;
     st_info ssim_text);;
  with_ (Column 2)
    (st_metric "PSNR" [Field psnr_value ".2f"; Text " dB"];;
     st_info psnr_text);;

  st_subheader "Color Histograms";;
  st_write [Text histograms_text];;
  call (plot_histogram (rescale src) 1%nat "Source");;
  call (plot_histogram (rescale gen) 2%nat "Generated");;
  call (plot_histogram (rescale tar) 3%nat "Target");;
  st_pyplot (Subplots 1 3 (15, 5)%nat
               [[Histogram (rescale src) "Source"];
                [Histogram (rescale gen) "Generated"];
                [Histogram (rescale tar) "Target"]]);;

  st_subheader "Difference Map";;
  '(diff_fig, mean_diff) ←
    call (plot_difference_map (rescale tar) (rescale gen));
  st_columns (Widths [1; 2]%nat);;
  with_ (Column 1) (st_pyplot (External diff_fig));;
  with_ (Column 2)
    (st_write [Text difference_map_text];;
     st_metric "Mean Difference" [Field mean_diff ".4f"];;
     st_info mean_difference_text);;

  st_subheader "Color Channels";;
  st_write [Text color_channels_text];;
  gen_channels ←
    call (plot_color_channels (rescale gen) "Generated Image Color Channels");
  st_pyplot (External gen_channels);;
  tar_channels ←
    call (plot_color_channels (rescale tar) "Target Image Color Channels");
  st_pyplot (External tar_channels);;

  st_subheader "LAB Color Space";;
  st_write [Text lab_text];;
  gen_lab ←
    call (plot_lab_channels (rescale gen) "Generated Image in LAB Color Space");
  st_pyplot (External gen_lab);;
  tar_lab ←
    call (plot_lab_channels (rescale tar) "Target Image in LAB Color Space");
  st_pyplot (External tar_lab);;

  st_subheader "Download Images";;
  st_columns (Equal 3);;
  with_ (Column 1)
    (st_download_button "Download Source Image" (FileData src_image)
       "source_image.png" "image/png");;
  with_ (Column 2)
    (st_download_button "Download Generated Image"
       (BytesData (gen_img_bytes gen))
       "generated_image.png" "image/png");;
  with_ (Column 3)
    (st_download_button "Download Target Image" (FileData tar_image)
       "target_image.png" "image/png").

(** *** Lines 50-136: the body of [with st.spinner(...)] *)
Definition process_and_render (src_image tar_image : UploadedFile)
  : script unit :=
  emit (ProcessImages src_image tar_image);;
  '(fig, ssim_value, psnr_value, src, gen, tar) ←
    call (process_images src_image tar_image);

  setattr "processed" (PBool true);;
  setattr "src" (PArr src);;
  setattr "gen" (PArr gen);;
  setattr "tar" (PArr tar);;

  render_results src_image tar_image fig ssim_value psnr_value src gen tar.

(** *** Lines 140-146: the comparison slider *)
Definition comparison_slider (w : widgets) : script unit :=
  st_subheader "Image Comparison Slider";;
  comparison_value ←
    st_slider "Slide to compare original and generated images"
      zero one half (slider_value w);
  src ← getattr "src";
  src ← call (operand src);
  let lhs :=
    np_mul_scalar (np_div_scalar (np_add_scalar src (of_int 1)) (of_int 2))
      (sub (of_int 1) comparison_value) in
  gen ← getattr "gen";
  gen ← call (operand gen);
  let rhs :=
    np_mul_scalar (np_div_scalar (np_add_scalar gen (of_int 1)) (of_int 2))
      comparison_value in
  img ← call (np_add lhs rhs);
  call (imshow img);;
  st_pyplot (Subplots 1 1 (10, 5)%nat [[Imshow img; AxisOff]]);;
  st_write [Text "Showing "; Field comparison_value ".0%";
            Text " of the generated image."].

(** [not v] *)
Definition py_not (v : pyval) : script bool :=
  b ← call (truth_value v); ret (negb b).

(** *** Lines 139-146: [if st.session_state.processed: ...] *)
Definition comparison (w : widgets) : script unit :=
  processed ← getattr "processed";
  processed ← call (truth_value processed);
  if processed then comparison_slider w else ret tt.

(** *** Lines 48-146: the page when both uploads are there.
    [or] evaluates its right operand only when the button was not
    clicked. *)
Definition analysis (w : widgets) (src_image tar_image : UploadedFile)
  : script unit :=
  clicked ← st_button "Process Images" (button_clicked w);
  go ← (if clicked then ret true
        else processed ← getattr "processed"; py_not processed);
  (if go
   then with_ (Spinner "Processing images...")
          (process_and_render src_image tar_image)
   else ret tt);;
  comparison w.

(** *** The whole script *)
Definition Home (w : widgets) : script unit :=
  st_set_page_config "SAR Image Colorization - Comparison" "wide";;
  st_title "Image Colorization of SAR Greyscale images";;

  initialise;;

  st_sidebar_header "About";;
  st_sidebar_info about_text;;
  st_sidebar_header "How to Use";;
  st_sidebar_markdown how_to_use_text;;

  st_columns (Equal 2);;
  src_image ←
    with_ (Column 1)
      (st_file_uploader "Upload Source (Grayscale) Image"
         ["png"; "jpg"; "jpeg"] (uploaded_src w));
  tar_image ←
    with_ (Column 2)
      (st_file_uploader "Upload Target (Color) Image"
         ["png"; "jpg"; "jpeg"] (uploaded_tar w));

  match src_image, tar_image with
  | Some src_image, Some tar_image => analysis w src_image tar_image
  | _, _ => st_info upload_prompt
  end;;

  st_markdown "---";;
  st_markdown "Developed by Team Horizon | Â© 2024".

End Page.

(** ** The arithmetic of the page, element by element *)

(** The bytes of the generated image, element by element:
    [((x + 1) / 2 * 255)] converted to [uint8]. *)
Definition raw_pixel_byte (x : float64) : byte :=
  byte_of_uint8 (astype_uint8 (mul (div (add x (of_int 1)) (of_int 2)) (of_int 255))).

(** The integer part of a finite float, said without the conversion: with
    [x = ± m * 2^e], [n] has the sign of [x] and [|n| <= m * 2^e < |n| + 1],
    written without fractions.  [nan] and the infinities have none. *)
Definition integer_part (x : float64) (n : Z) : Prop :=
  match x with
  | S754_zero _ => n = 0
  | S754_finite sg m e =>
      (if sg then n <= 0 else 0 <= n)
      /\ Z.abs n * 2 ^ Z.max 0 (- e) <= Z.pos m * 2 ^ Z.max 0 e
      /\ Z.pos m * 2 ^ Z.max 0 e < (Z.abs n + 1) * 2 ^ Z.max 0 (- e)
  | _ => False
  end.

(** The first eight bytes of every PNG stream. *)
Definition png_signature : list byte :=
  [x89; x50; x4e; x47; x0d; x0a; x1a; x0a].

(** One element of the blended image:
    [((x + 1) / 2) * (1 - v) + ((y + 1) / 2) * v]. *)
Definition blend (v x y : float64) : float64 :=
  add (mul (div (add x (of_int 1)) (of_int 2)) (sub (of_int 1) v))
      (mul (div (add y (of_int 1)) (of_int 2)) v).

(** One element rescaled from [-1, 1] to [0, 1]: [(x + 1) / 2]. *)
Definition rescaled (x : float64) : float64 :=
  div (add x (of_int 1)) (of_int 2).

(** A binary64 number between -1.0 and 1.0. *)
Definition in_range (x : float64) : bool :=
  valid x && leb minus_one x && leb x one.

(** An element whose rescaled value is a proper binary64 number: neither
    [nan] nor an infinity. *)
Definition rescales (x : float64) : bool :=
  valid (rescaled x) && is_finite (rescaled x).

(** ** Reading a run *)

Section Observations.
Context `{image_colorization}.

(** The session state after lines 12-19. *)
Definition set_default (k : string) (v : pyval) (s : gmap string pyval)
  : gmap string pyval :=
  if bool_decide (is_Some (s !! k)) then s else <[k := v]> s.

Definition init_session (s : gmap string pyval) : gmap string pyval :=
  set_default "tar" PNone
    (set_default "gen" PNone
       (set_default "src" PNone
          (set_default "processed" (PBool false) s))).

(** The session state after lines 52-55. *)
Definition assigned (s : gmap string pyval) (src gen tar : ndarray)
  : gmap string pyval :=
  <["tar" := PArr tar]>
    (<["gen" := PArr gen]>
       (<["src" := PArr src]>
          (<["processed" := PBool true]> s))).

Definition session_keys : list string := ["processed"; "src"; "gen"; "tar"].

(** What lines 12-19 store under a key that is absent. *)
Definition default_value (k : string) : option pyval :=
  if decide (k = "processed") then Some (PBool false)
  else if decide (k = "src") then Some PNone
  else if decide (k = "gen") then Some PNone
  else if decide (k = "tar") then Some PNone
  else None.

(** What every run renders before line 47 and after line 149. *)
Definition header : list event :=
  [SetPageConfig "SAR Image Colorization - Comparison" "wide";
   Title "Image Colorization of SAR Greyscale images";
   SidebarHeader "About"; SidebarInfo about_text;
   SidebarHeader "How to Use"; SidebarMarkdown how_to_use_text;
   Columns (Equal 2);
   Enter (Column 1);
   FileUploader "Upload Source (Grayscale) Image" ["png"; "jpg"; "jpeg"];
   Leave (Column 1);
   Enter (Column 2);
   FileUploader "Upload Target (Color) Image" ["png"; "jpg"; "jpeg"];
   Leave (Column 2)].

Definition footer : list event :=
  [Markdown "---"; Markdown "Developed by Team Horizon | Â© 2024"].

(** The arguments of the calls of [process_images], in order. *)
Definition process_images_calls (t : list event)
  : list (UploadedFile * UploadedFile) :=
  omap (fun e => match e with
                 | ProcessImages a b => Some (a, b)
                 | _ => None
                 end) t.

Definition file_uploaders (t : list event) : list (string * list string) :=
  omap (fun e => match e with
                 | FileUploader label type => Some (label, type)
                 | _ => None
                 end) t.

Definition download_buttons (t : list event)
  : list (string * download_data * string * string) :=
  omap (fun e => match e with
                 | DownloadButton label d file_name mime =>
                     Some (label, d, file_name, mime)
                 | _ => None
                 end) t.

(** The figures and metrics shown, in order. *)
Definition displayed (t : list event) : list event :=
  omap (fun e => match e with
                 | Pyplot _ | Metric _ _ => Some e
                 | _ => None
                 end) t.

(** The condition of line 48 as the run evaluates it: the button was
    clicked, or [not st.session_state.processed] holds. *)
Definition fires (clicked : bool) (processed : pyval) : result bool :=
  if clicked then Ok true
  else match truth_value processed with
       | Ok b => Ok (negb b)
       | Raise e => Raise e
       end.

Definition processing_fires (w : widgets) (s : gmap string pyval) : bool :=
  match init_session s !! "processed" with
  | Some p =>
      match fires (button_clicked w) p with
      | Ok b => b
      | Raise _ => false
      end
  | None => false
  end.

(** The three download buttons of a run whose model returned [gen]. *)
Definition expected_downloads (src_image tar_image : UploadedFile)
    (gen : ndarray) : list (string * download_data * string * string) :=
  [("Download Source Image", FileData src_image,
    "source_image.png", "image/png");
   ("Download Generated Image", BytesData (map raw_pixel_byte (data gen)),
    "generated_image.png", "image/png");
   ("Download Target Image", FileData tar_image,
    "target_image.png", "image/png")].

(** The figures and metrics of lines 57-108. *)
Definition expected_display (fig : Figure) (ssim_value psnr_value : float64)
    (src gen tar : ndarray) (diff_fig : Figure) (mean_diff : float64)
    (gen_channels tar_channels gen_lab tar_lab : Figure) : list event :=
  [Pyplot (External fig);
   Metric "SSIM" [Field ssim_value ".4f"];
   Metric "PSNR" [Field psnr_value ".2f"; Text " dB"];
   Pyplot (Subplots 1 3 (15, 5)%nat
             [[Histogram (rescale src) "Source"];
              [Histogram (rescale gen) "Generated"];
              [Histogram (rescale tar) "Target"]]);
   Pyplot (External diff_fig);
   Metric "Mean Difference" [Field mean_diff ".4f"];
   Pyplot (External gen_channels);
   Pyplot (External tar_channels);
   Pyplot (External gen_lab);
   Pyplot (External tar_lab)].

(** The image the slider shows for two stored arrays of one shape. *)
Definition blended (v : float64) (src gen : ndarray) : ndarray :=
  mk_ndarray (shape src) (zip_data (blend v) (data src) (data gen)).

(** [np.broadcast_to(a, sh)]: the array of shape [sh] that repeats [a]
    along the dimensions where [a] has extent 1 or none. *)
Definition broadcast_to (a : ndarray) (sh : list nat) : ndarray :=
  mk_ndarray sh (map (broadcast_item a sh) (seq 0 (size_of sh))).

Definition slider_figure (img : npval) : figure :=
  Subplots 1 1 (10, 5)%nat [[Imshow img; AxisOff]].

(** The slider: from 0.0 to 1.0, at 0.5 until it is moved. *)
Definition slider_event : event :=
  Slider "Slide to compare original and generated images" zero one half.

(** The parts of what a run gives. *)
Definition outcome {A} (x : result A * gmap string pyval * list event)
  : result A := x.1.1.
Definition final_state {A} (x : result A * gmap string pyval * list event)
  : gmap string pyval := x.1.2.
Definition trace {A} (x : result A * gmap string pyval * list event)
  : list event := x.2.

(** The session state lines 12-19 make of an empty one. *)
Definition default_session : gmap string pyval :=
  <["tar" := PNone]>
    (<["gen" := PNone]>
       (<["src" := PNone]>
          (<["processed" := PBool false]> ∅))).

(** [processed] is [True] only with three buffers that are not [None]. *)
Definition not_none (s : gmap string pyval) (k : string) : bool :=
  match s !! k with
  | Some PNone | None => false
  | Some _ => true
  end.

Definition buffers_ready (s : gmap string pyval) : bool :=
  match s !! "processed" with
  | Some (PBool true) =>
      not_none s "src" && not_none s "gen" && not_none s "tar"
  | _ => true
  end.

End Observations.

(** ** Two stand-ins for the external module *)

Definition demo_src : ndarray :=
  mk_ndarray [1; 2; 1]%nat [of_int (-1); of_scaled 1 (-1)].
Definition demo_gen : ndarray :=
  mk_ndarray [1; 2; 1]%nat [of_int 1; of_int 0].
Definition demo_tar : ndarray :=
  mk_ndarray [1; 2; 1]%nat [of_scaled 1 (-2); of_int 1].

(** A module whose functions all return. *)
Definition demo_module : image_colorization := {|
  Figure := string;
  process_images _ _ :=
    Ok ("comparison", of_scaled 3 (-2), of_int 30, demo_src, demo_gen, demo_tar);
  plot_histogram _ _ _ := Ok tt;
  plot_difference_map _ _ := Ok ("difference", of_scaled 1 (-3));
  plot_color_channels _ title := Ok title;
  plot_lab_channels _ title := Ok title
|}.

(** A module whose model fails. *)
Definition failing_module : image_colorization := {|
  Figure := string;
  process_images _ _ := Raise (Error "cannot identify image file");
  plot_histogram _ _ _ := Ok tt;
  plot_difference_map _ _ := Ok ("difference", of_scaled 1 (-3));
  plot_color_channels _ title := Ok title;
  plot_lab_channels _ title := Ok title
|}.

Definition demo_source_file : UploadedFile :=
  mk_UploadedFile "sar.png" [x89; x50; x4e; x47].
Definition demo_target_file : UploadedFile :=
  mk_UploadedFile "optical.jpg" [xff; xd8; xff].

(** Both uploads, button not clicked, slider at its default. *)
Definition demo_widgets : widgets :=
  mk_widgets (Some demo_source_file) (Some demo_target_file) false
    (of_scaled 1 (-1)).

(** Only the source was uploaded. *)
Definition demo_widgets_one_upload : widgets :=
  mk_widgets (Some demo_source_file) None true (of_scaled 1 (-1)).

(** The session state a completed run leaves. *)
Definition demo_session : gmap string pyval :=
  <["processed" := PBool true]>
    (<["src" := PArr demo_src]>
       (<["gen" := PArr demo_gen]>
          (<["tar" := PArr demo_tar]> ∅))).

(** A generated image of three channels for the source of one channel,
    and the session state that holds the two. *)
Definition demo_gen_rgb : ndarray :=
  mk_ndarray [1; 2; 3]%nat
    [of_int 1; of_int 0; of_int (-1);
     of_scaled 1 (-1); of_scaled 1 (-2); of_int 0].

Definition demo_session_rgb : gmap string pyval :=
  <["processed" := PBool true]>
    (<["src" := PArr demo_src]>
       (<["gen" := PArr demo_gen_rgb]>
          (<["tar" := PArr demo_tar]> ∅))).
(** ** More observations on a run *)

#[global] Instance container_eq_dec : EqDecision container.
Proof. solve_decision. Defined.

Section MoreObservations.
Context `{image_colorization}.

Definition page_configs (t : list event) : list (string * string) :=
  omap (fun e => match e with
                 | SetPageConfig page_title layout => Some (page_title, layout)
                 | _ => None
                 end) t.

Definition markdowns (t : list event) : list string :=
  omap (fun e => match e with
                 | Markdown body => Some body
                 | _ => None
                 end) t.

Definition buttons (t : list event) : list string :=
  omap (fun e => match e with
                 | Button label => Some label
                 | _ => None
                 end) t.

(** The title and the sidebar, as rendered. *)
Definition title_and_sidebar (t : list event) : list event :=
  omap (fun e => match e with
                 | Title _ | SidebarHeader _ | SidebarInfo _
                 | SidebarMarkdown _ => Some e
                 | _ => None
                 end) t.

(** Any call but the prompt of line 149. *)
Definition not_prompt (e : event) : bool :=
  match e with
  | Info body => negb (String.eqb body upload_prompt)
  | _ => true
  end.

(** The calls made between line 47 and line 149 when both uploads are
    there: none of those of the header and the footer. *)
Definition analysis_event (e : event) : bool :=
  match e with
  | SetPageConfig _ _ | Title _ | SidebarHeader _ | SidebarInfo _
  | SidebarMarkdown _ | FileUploader _ _ | Markdown _ => false
  | _ => true
  end.

(** The calls of the spinner block and of the slider block: in addition,
    no button. *)
Definition block_event (e : event) : bool :=
  match e with
  | Button _ => false
  | _ => analysis_event e
  end.

(** [with] blocks that are properly nested: [open] are the blocks entered
    and not yet left, innermost first. *)
Fixpoint nested (open : list container) (t : list event) : bool :=
  match t with
  | [] => match open with [] => true | _ => false end
  | Enter c :: t' => nested (c :: open) t'
  | Leave c :: t' =>
      match open with
      | c' :: open' => if decide (c = c') then nested open' t' else false
      | [] => false
      end
  | _ :: t' => nested open t'
  end.

(** A session state with the types the page stores: a [bool] flag, and
    buffers that are [None] or arrays. *)
Definition is_flag (v : option pyval) : bool :=
  match v with
  | None | Some (PBool _) => true
  | _ => false
  end.

Definition is_buffer (v : option pyval) : bool :=
  match v with
  | None | Some PNone | Some (PArr _) => true
  | _ => false
  end.

Definition session_typed (s : gmap string pyval) : bool :=
  is_flag (s !! "processed") && is_buffer (s !! "src")
  && is_buffer (s !! "gen") && is_buffer (s !! "tar").

(** Every call a piece of the script makes satisfies [P]. *)
Definition emits {A} (P : event -> bool) (m : script A) : Prop :=
  forall s, Forall (fun e => P e = true) (trace (m s)).

(** A piece of the script leaves every block it enters. *)
Definition balanced {A} (m : script A) : Prop :=
  forall s open rest,
    nested open (trace (m s) ++ rest) = nested open rest.

(** The session state after one run for each element of [ws]: Streamlit
    runs the script again on every interaction and hands it the session
    state the last run left. *)
Fixpoint runs (ws : list widgets) (s : gmap string pyval)
  : gmap string pyval :=
  match ws with
  | [] => s
  | w :: ws' => runs ws' (final_state (Home w s))
  end.
End MoreObservations.

(** Both uploads again, with the two files the other way round. *)
Definition demo_widgets_other_files : widgets :=
  mk_widgets (Some demo_target_file) (Some demo_source_file) false
    (of_scaled 1 (-1)).

(** Two stored arrays of shape (2,): numbers, but no image. *)
Definition demo_flat : ndarray := mk_ndarray [2]%nat [of_int 0; of_int 1].

Definition demo_session_flat : gmap string pyval :=
  <["processed" := PBool true]>
    (<["src" := PArr demo_flat]>
       (<["gen" := PArr demo_flat]>
          (<["tar" := PArr demo_flat]> ∅))).

(** ** Facts of binary64 arithmetic *)

(** *** Digits and shifts *)

(** The number of binary digits of an integer, and its bounds. *)
Lemma Zdigits2_nonneg m : 0 <= Zdigits2 m.
Proof. destruct m; cbn; lia. Qed.

Lemma Zdigits2_zero m : 0 <= m -> (Zdigits2 m = 0 <-> m = 0).
Proof. destruct m; cbn; lia. Qed.

Lemma digits2_pos_bounds p :
  2 ^ (Z.pos (digits2_pos p) - 1) <= Z.pos p < 2 ^ Z.pos (digits2_pos p).
Proof.
  induction p as [p IH|p IH|]; cbn [digits2_pos].
  - rewrite Pos2Z.inj_succ.
    replace (Z.succ (Z.pos (digits2_pos p)) - 1) with (Z.succ (Z.pos (digits2_pos p) - 1)) by lia.
    rewrite !Z.pow_succ_r by lia. lia.
  - rewrite Pos2Z.inj_succ.
    replace (Z.succ (Z.pos (digits2_pos p)) - 1) with (Z.succ (Z.pos (digits2_pos p) - 1)) by lia.
    rewrite !Z.pow_succ_r by lia. lia.
  - cbn. lia.
Qed.

Lemma Zdigits2_upper m k : 0 <= m -> 0 <= k -> m < 2 ^ k -> Zdigits2 m <= k.
Proof.
  intros Hm Hk Hlt. destruct m as [|p|p]; cbn; try lia.
  destruct (Z_le_gt_dec (Z.pos (digits2_pos p)) k) as [|Hgt]; [lia|].
  pose proof (digits2_pos_bounds p) as [Hlo _].
  assert (2 ^ k <= 2 ^ (Z.pos (digits2_pos p) - 1)) by (apply Z.pow_le_mono_r; lia).
  lia.
Qed.

Lemma Zdigits2_lower m k : 0 <= k -> 2 ^ k <= m -> k + 1 <= Zdigits2 m.
Proof.
  intros Hk Hle.
  assert (0 < 2 ^ k) by (apply Z.pow_pos_nonneg; lia).
  destruct m as [|p|p]; cbn; try lia.
  destruct (Z_le_gt_dec (k + 1) (Z.pos (digits2_pos p))) as [|Hgt]; [lia|].
  pose proof (digits2_pos_bounds p) as [_ Hhi].
  assert (2 ^ Z.pos (digits2_pos p) <= 2 ^ k) by (apply Z.pow_le_mono_r; lia).
  lia.
Qed.

(** Shifting right by one digit, and by [n] digits. *)
Lemma shr_1_m mrs : 0 <= shr_m mrs ->
  0 <= shr_m (shr_1 mrs) /\
  Zdigits2 (shr_m (shr_1 mrs)) = Z.max (Zdigits2 (shr_m mrs) - 1) 0.
Proof.
  destruct mrs as [m r s]. cbn [shr_m]. intros Hm.
  destruct m as [|[p|p|]|p]; cbn [shr_1 shr_m Zdigits2 digits2_pos]; try lia.
Qed.

Lemma iter_shr_1 n : forall mrs, 0 <= shr_m mrs ->
  0 <= shr_m (SpecFloat.iter_pos shr_1 n mrs) /\
  Zdigits2 (shr_m (SpecFloat.iter_pos shr_1 n mrs)) = Z.max (Zdigits2 (shr_m mrs) - Z.pos n) 0.
Proof.
  induction n as [n IH|n IH|]; intros mrs Hm; cbn [SpecFloat.iter_pos].
  - destruct (shr_1_m mrs Hm) as [H1 E1].
    destruct (IH _ H1) as [H2 E2]. destruct (IH _ H2) as [H3 E3].
    split; [exact H3|]. rewrite E3, E2, E1. lia.
  - destruct (IH _ Hm) as [H2 E2]. destruct (IH _ H2) as [H3 E3].
    split; [exact H3|]. rewrite E3, E2. lia.
  - destruct (shr_1_m mrs Hm) as [H1 E1]. split; [exact H1|]. rewrite E1. lia.
Qed.

Lemma shr_record_of_loc_m m l : shr_m (shr_record_of_loc m l) = m.
Proof. destruct l as [|[]]; reflexivity. Qed.

(** Adding one adds at most one digit. *)
Lemma digits2_pos_succ p :
  digits2_pos (Pos.succ p) = digits2_pos p \/
  digits2_pos (Pos.succ p) = Pos.succ (digits2_pos p).
Proof.
  induction p as [p IH|p IH|].
  - change (Pos.succ p~1) with (Pos.succ p)~0%positive.
    change (digits2_pos (Pos.succ p)~0) with (Pos.succ (digits2_pos (Pos.succ p))).
    change (digits2_pos p~1) with (Pos.succ (digits2_pos p)).
    destruct IH as [-> | ->]; auto.
  - left. reflexivity.
  - right. reflexivity.
Qed.

Lemma Zdigits2_succ m : 0 <= m ->
  Zdigits2 (m + 1) = Zdigits2 m \/ Zdigits2 (m + 1) = Zdigits2 m + 1.
Proof.
  intros Hm. destruct m as [|p|p]; try lia.
  - right. reflexivity.
  - replace (Z.pos p + 1) with (Z.pos (Pos.succ p)) by lia. cbn [Zdigits2].
    destruct (digits2_pos_succ p) as [-> | ->]; [left|right]; lia.
Qed.

Lemma round_nearest_even_cases m l : 0 <= m ->
  round_nearest_even m l = m \/ round_nearest_even m l = m + 1.
Proof.
  intros _. destruct l as [|[]]; cbn; auto. destruct (Z.even m); auto.
Qed.

(** *** Rounding *)

(** The exponent of the last place of a binary64 number. *)
Lemma fexp_eq e : fexp prec emax e = Z.max (e - 53) (-1074).
Proof. reflexivity. Qed.

(** The first shift of a rounding brings the exponent to that of the last
    place and drops as many digits of the mantissa. *)
Lemma shr_first mx ex lx :
  0 <= mx -> ex <= fexp prec emax (Zdigits2 mx + ex) ->
  exists mrs,
    shr_fexp prec emax mx ex lx = (mrs, fexp prec emax (Zdigits2 mx + ex)) /\
    0 <= shr_m mrs /\
    Zdigits2 (shr_m mrs) =
      Z.max (Zdigits2 mx - (fexp prec emax (Zdigits2 mx + ex) - ex)) 0.
Proof.
  intros Hm He. unfold shr_fexp, shr.
  destruct (fexp prec emax (Zdigits2 mx + ex) - ex) as [|n|n] eqn:En; try lia.
  - eexists. split; [f_equal; lia|]. rewrite shr_record_of_loc_m.
    pose proof (Zdigits2_nonneg mx). lia.
  - destruct (iter_shr_1 n (shr_record_of_loc mx lx)) as [H1 H2].
    { rewrite shr_record_of_loc_m. exact Hm. }
    rewrite shr_record_of_loc_m in H2.
    eexists. split; [f_equal; lia|]. split; [exact H1|exact H2].
Qed.

(** The second shift, made once the mantissa is rounded, leaves it as it is
    or drops the digits it has beyond the last place. *)
Lemma shr_second m e :
  0 <= m ->
  exists mrs e',
    shr_fexp prec emax m e loc_Exact = (mrs, e') /\
    0 <= shr_m mrs /\
    ((fexp prec emax (Zdigits2 m + e) <= e /\ shr_m mrs = m /\ e' = e) \/
     (e < fexp prec emax (Zdigits2 m + e) /\
      e' = fexp prec emax (Zdigits2 m + e) /\
      Zdigits2 (shr_m mrs) = Z.max (Zdigits2 m - (e' - e)) 0)).
Proof.
  intros Hm. unfold shr_fexp, shr.
  destruct (fexp prec emax (Zdigits2 m + e) - e) as [|n|n] eqn:En.
  - eexists _, _. split; [reflexivity|]. cbn [shr_record_of_loc shr_m].
    split; [exact Hm|]. left. lia.
  - destruct (iter_shr_1 n (shr_record_of_loc m loc_Exact)) as [H1 H2].
    { exact Hm. }
    eexists _, _. split; [reflexivity|]. split; [exact H1|].
    right. rewrite shr_record_of_loc_m in H2.
    split; [lia|]. split; [lia|]. rewrite H2. f_equal. lia.
  - eexists _, _. split; [reflexivity|]. cbn [shr_record_of_loc shr_m].
    split; [exact Hm|]. left. lia.
Qed.

(** Rounding gives a valid binary64 value, and a finite one when the
    exponent of the last place is not the largest there is. *)
Lemma binary_round_aux_spec sx mx ex lx :
  0 <= mx -> ex <= fexp prec emax (Zdigits2 mx + ex) ->
  valid_binary prec emax (binary_round_aux prec emax sx mx ex lx) = true /\
  (fexp prec emax (Zdigits2 mx + ex) + 1 <= emax - prec ->
   is_finite (binary_round_aux prec emax sx mx ex lx) = true).
Proof.
  intros Hm He. unfold binary_round_aux.
  destruct (shr_first mx ex lx Hm He) as (mrs1 & -> & Hm1 & Hd1).
  set (E := fexp prec emax (Zdigits2 mx + ex)) in *.
  set (m1 := shr_m mrs1) in *.
  set (m2 := round_nearest_even m1 (loc_of_shr_record mrs1)).
  assert (Hm2 : m2 = m1 \/ m2 = m1 + 1) by (apply round_nearest_even_cases; exact Hm1).
  assert (Hm2' : 0 <= m2) by lia.
  destruct (shr_second m2 E Hm2') as (mrs2 & e2 & -> & Hm3 & Hcase).
  pose proof (Zdigits2_nonneg mx) as Hdx.
  pose proof (Zdigits2_nonneg m1) as Hdm1.
  pose proof (Zdigits2_zero m1 Hm1) as Hz1.
  pose proof (Zdigits2_zero m2 Hm2') as Hz2.
  pose proof (Zdigits2_zero (shr_m mrs2) Hm3) as Hz3.
  assert (Hd2 : Zdigits2 m2 = Zdigits2 m1 \/ Zdigits2 m2 = Zdigits2 m1 + 1).
  { destruct Hm2 as [-> | ->]; [left; reflexivity|]. apply Zdigits2_succ; exact Hm1. }
  pose proof (fexp_eq (Zdigits2 mx + ex)) as HE. fold E in HE.
  pose proof (fexp_eq (Zdigits2 m2 + E)) as HE2.
  destruct (shr_m mrs2) as [|m3|m3] eqn:Em3; [split; reflexivity| |lia].
  assert (Hcan : fexp prec emax (Z.pos (digits2_pos m3) + e2) = e2 /\ e2 <= E + 1).
  { change (Z.pos (digits2_pos m3)) with (Zdigits2 (Z.pos m3)).
    pose proof (fexp_eq (Zdigits2 (Z.pos m3) + e2)) as HE3.
    destruct Hcase as [(Hle & Heq & ->) | (Hlt & -> & Hd3)].
    - rewrite <- Heq in *. lia.
    - lia. }
  destruct Hcan as [Hcan Hle].
  destruct (Z.leb_spec e2 (emax - prec)) as [Hb|Hb].
  - split; [|reflexivity]. cbn [valid_binary]. unfold bounded, canonical_mantissa.
    rewrite Hcan, Z.eqb_refl. cbn [andb]. apply Z.leb_le. exact Hb.
  - split; [reflexivity|]. intros Hfin. lia.
Qed.

(** *** Division *)

Lemma pow2_pos k : 0 <= k -> 0 < 2 ^ k.
Proof. intros. apply Z.pow_pos_nonneg; lia. Qed.

Lemma pow2_add a b : 0 <= a -> 0 <= b -> 2 ^ (a + b) = 2 ^ a * 2 ^ b.
Proof. intros. apply Z.pow_add_r; lia. Qed.

(** The quotient that the division rounds, and the digits it has. *)
Lemma SFdiv_core_binary_spec (m1 m2 : positive) (e1 e2 : Z) :
  let D := Z.pos (digits2_pos m1) + e1 - (Z.pos (digits2_pos m2) + e2) in
  exists q e' l,
    SFdiv_core_binary prec emax (Z.pos m1) e1 (Z.pos m2) e2 = (q, e', l) /\
    0 <= q /\
    e' <= fexp prec emax D /\
    D <= Zdigits2 q + e' /\
    Zdigits2 q + e' <= Z.max (D + 1) e'.
Proof.
  intros D. unfold SFdiv_core_binary. cbn [Zdigits2]. fold D.
  set (e' := Z.min (fexp prec emax D) (e1 - e2)).
  set (s := e1 - e2 - e').
  assert (Hs : 0 <= s) by (unfold s, e'; lia).
  set (m' := match s with
             | 0 => Z.pos m1
             | Z.pos _ => Z.shiftl (Z.pos m1) s
             | Z.neg _ => 0
             end).
  assert (Hm' : m' = Z.pos m1 * 2 ^ s).
  { unfold m'. destruct s as [|p|p] eqn:Es; try lia.
    rewrite Z.shiftl_mul_pow2 by lia. reflexivity. }
  pose proof (Z_div_mod m' (Z.pos m2) ltac:(lia)) as Hdiv.
  destruct (Z.div_eucl m' (Z.pos m2)) as [q r].
  destruct Hdiv as [Hq Hr].
  pose proof (digits2_pos_bounds m1) as [Hlo1 Hhi1].
  pose proof (digits2_pos_bounds m2) as [Hlo2 Hhi2].
  set (a := Z.pos (digits2_pos m1)) in *.
  set (b := Z.pos (digits2_pos m2)) in *.
  assert (Ha : 1 <= a) by (unfold a; lia).
  assert (Hb : 1 <= b) by (unfold b; lia).
  pose proof (pow2_pos s Hs) as Hps.
  assert (Hq0 : 0 <= q) by nia.
  assert (HDs : a + s - b = D - e') by (unfold D, s; lia).
  exists q, e', (new_location (Z.pos m2) r).
  split; [reflexivity|]. split; [exact Hq0|]. split; [unfold e'; lia|].
  split.
  - (* lower bound on the digits of q *)
    destruct (Z_le_gt_dec (a + s - b) 0) as [Hle|Hgt].
    + pose proof (Zdigits2_nonneg q). lia.
    + assert (Hk : 0 <= a + s - b - 1) by lia.
      assert (Hpow : 2 ^ (a + s - b - 1) * 2 ^ b = 2 ^ (a - 1) * 2 ^ s).
      { rewrite <- !pow2_add by lia. f_equal. lia. }
      pose proof (pow2_pos _ Hk) as Hpk.
      assert (2 ^ (a + s - b - 1) <= q) by nia.
      pose proof (Zdigits2_lower q _ Hk H). lia.
  - (* upper bound *)
    destruct (Z_le_gt_dec 0 (a + s - b + 1)) as [Hle|Hgt].
    + assert (Hpow : 2 ^ (a + s - b + 1) * 2 ^ (b - 1) = 2 ^ a * 2 ^ s).
      { rewrite <- !pow2_add by lia. f_equal. lia. }
      pose proof (pow2_pos _ Hle) as Hpk.
      pose proof (pow2_pos (b - 1) ltac:(lia)) as Hpb.
      assert (q < 2 ^ (a + s - b + 1)) by nia.
      pose proof (Zdigits2_upper q _ Hq0 Hle H). lia.
    + assert (Hlt : 2 ^ (a + s) <= 2 ^ (b - 1)) by (apply Z.pow_le_mono_r; lia).
      rewrite pow2_add in Hlt by lia.
      assert (q = 0) by nia. subst q. cbn [Zdigits2]. lia.
Qed.

(** Every quotient is a valid binary64 value. *)
Lemma SFdiv_valid x y : valid (div x y) = true.
Proof.
  destruct x as [sx|sx| |sx mx ex], y as [sy|sy| |sy my ey]; try reflexivity.
  unfold valid, div, SFdiv.
  destruct (SFdiv_core_binary_spec mx my ex ey) as (q & e' & l & -> & Hq & He & Hlo & Hhi).
  apply binary_round_aux_spec; [exact Hq|].
  pose proof (fexp_eq (Zdigits2 q + e')).
  pose proof (fexp_eq (Z.pos (digits2_pos mx) + ex - (Z.pos (digits2_pos my) + ey))).
  lia.
Qed.

(** A quotient does not overflow when the magnitudes of the operands are
    not too far apart. *)
Lemma SFdiv_finite sx mx ex sy my ey :
  Z.pos (digits2_pos mx) + ex - (Z.pos (digits2_pos my) + ey) <= 1022 ->
  is_finite (div (S754_finite sx mx ex) (S754_finite sy my ey)) = true.
Proof.
  intros HD. unfold div, SFdiv.
  destruct (SFdiv_core_binary_spec mx my ex ey) as (q & e' & l & -> & Hq & He & Hlo & Hhi).
  pose proof (fexp_eq (Zdigits2 q + e')).
  pose proof (fexp_eq (Z.pos (digits2_pos mx) + ex - (Z.pos (digits2_pos my) + ey))).
  apply binary_round_aux_spec; [exact Hq|lia|].
  unfold prec, emax in *. lia.
Qed.

(** *** Addition, and the rescaling of a number between -1.0 and 1.0 *)

Lemma Pos_iter_xO m d : Z.pos (Pos.iter xO m d) = Z.pos m * 2 ^ Z.pos d.
Proof.
  induction d as [|d IH] using Pos.peano_ind.
  - cbn [Pos.iter]. lia.
  - rewrite Pos.iter_succ, Pos2Z.inj_xO, IH, Pos2Z.inj_succ, Z.pow_succ_r by lia.
    lia.
Qed.

Lemma Zdigits2_abs m : Zdigits2 m = Zdigits2 (Z.abs m).
Proof. destruct m; reflexivity. Qed.

Lemma binary_round_spec sx mx ex :
  valid_binary prec emax (binary_round prec emax sx mx ex) = true /\
  (fexp prec emax (Z.pos (digits2_pos mx) + ex) + 1 <= emax - prec ->
   is_finite (binary_round prec emax sx mx ex) = true).
Proof.
  unfold binary_round, shl_align.
  pose proof (fexp_eq (Z.pos (digits2_pos mx) + ex)) as HE.
  destruct (fexp prec emax (Z.pos (digits2_pos mx) + ex) - ex) as [|d|d] eqn:Ed.
  - apply binary_round_aux_spec; cbn [Zdigits2]; lia.
  - apply binary_round_aux_spec; cbn [Zdigits2]; lia.
  - assert (Hd : Z.pos (digits2_pos (Pos.iter xO mx d)) +
                 fexp prec emax (Z.pos (digits2_pos mx) + ex)
                 = Z.pos (digits2_pos mx) + ex).
    { pose proof (digits2_pos_bounds mx) as [Hlo Hhi].
      pose proof (digits2_pos_bounds (Pos.iter xO mx d)) as [Hlo' Hhi'].
      rewrite Pos_iter_xO in Hlo', Hhi'.
      set (a := Z.pos (digits2_pos mx)) in *.
      set (b := Z.pos (digits2_pos (Pos.iter xO mx d))) in *.
      assert (Ha : 1 <= a) by (unfold a; lia).
      assert (Hb : 1 <= b) by (unfold b; lia).
      assert (b = a + Z.pos d); [|lia].
      pose proof (pow2_pos (Z.pos d) ltac:(lia)).
      destruct (Z.lt_trichotomy b (a + Z.pos d)) as [Hlt|[Heq|Hgt]]; [|exact Heq|].
      - assert (2 ^ b <= 2 ^ (a - 1 + Z.pos d)) by (apply Z.pow_le_mono_r; lia).
        rewrite pow2_add in H0 by lia. nia.
      - assert (2 ^ (a + Z.pos d) <= 2 ^ (b - 1)) by (apply Z.pow_le_mono_r; lia).
        rewrite pow2_add in H0 by lia. nia. }
    destruct (binary_round_aux_spec sx (Z.pos (Pos.iter xO mx d))
                (fexp prec emax (Z.pos (digits2_pos mx) + ex)) loc_Exact)
      as [Hv Hf]; [lia| |].
    + cbn [Zdigits2]. rewrite Hd. lia.
    + cbn [Zdigits2] in Hf. rewrite Hd in Hf. split; [exact Hv|exact Hf].
Qed.

Lemma binary_normalize_spec m e sz :
  valid_binary prec emax (binary_normalize prec emax m e sz) = true /\
  (fexp prec emax (Zdigits2 m + e) + 1 <= emax - prec ->
   is_finite (binary_normalize prec emax m e sz) = true).
Proof.
  destruct m as [|p|p]; cbn [binary_normalize Zdigits2].
  - split; reflexivity.
  - apply binary_round_spec.
  - apply binary_round_spec.
Qed.

(** A finite number between -1.0 and 1.0 has an exponent of at most -52. *)
Lemma range_exponent s m e :
  leb minus_one (S754_finite s m e) = true ->
  leb (S754_finite s m e) one = true ->
  e <= -52.
Proof.
  intros Hlo Hhi. destruct s.
  - unfold leb, SFleb, SFcompare, minus_one in Hlo.
    destruct (Z.compare_spec (-52) e) as [Heq|Hlt|Hgt]; [lia| |lia].
    cbv iota in Hlo. discriminate Hlo.
  - unfold leb, SFleb, SFcompare, one in Hhi.
    destruct (Z.compare_spec e (-52)) as [Heq|Hlt|Hgt]; [lia|lia|].
    cbv iota in Hhi. discriminate Hhi.
Qed.

Lemma valid_digits s m e :
  valid (S754_finite s m e) = true ->
  Z.pos (digits2_pos m) <= 53 /\ e <= 971.
Proof.
  unfold valid. cbn [valid_binary]. unfold bounded, canonical_mantissa.
  intros [Hc He]%andb_prop. apply Z.eqb_eq in Hc. apply Z.leb_le in He.
  rewrite fexp_eq in Hc. unfold prec, emax in *. lia.
Qed.

(** [x + 1] for [x] between -1.0 and 1.0 is a finite binary64 number. *)
Lemma add_one_spec x :
  valid x = true -> leb minus_one x = true -> leb x one = true ->
  valid (add x one) = true /\ is_finite (add x one) = true.
Proof.
  destruct x as [s|s| |s m e]; try discriminate.
  - intros _ _ _. split; reflexivity.
  - intros _ Hlo Hhi. destruct s; discriminate.
  - intros Hv Hlo Hhi.
    pose proof (range_exponent _ _ _ Hlo Hhi) as He.
    destruct (valid_digits _ _ _ Hv) as [Hd _].
    unfold valid, add, SFadd, one.
    replace (Z.min e (-52)) with e by lia.
    set (M := cond_Zopp s (Z.pos (fst (shl_align m e e))) +
              cond_Zopp false (Z.pos (fst (shl_align 4503599627370496 (-52) e)))).
    assert (HM : Z.abs M < 2 ^ (2 - e)).
    { assert (H1 : Z.pos (fst (shl_align m e e)) = Z.pos m).
      { unfold shl_align. rewrite Z.sub_diag. reflexivity. }
      assert (H2 : Z.pos (fst (shl_align 4503599627370496 (-52) e)) = 2 ^ (- e)).
      { unfold shl_align. destruct (e - -52) as [|d|d] eqn:Ed; try lia; cbn [fst].
        - replace (- e) with 52 by lia. reflexivity.
        - rewrite Pos_iter_xO. change (Z.pos 4503599627370496) with (2 ^ 52).
          rewrite <- pow2_add by lia. f_equal. lia. }
      unfold M. rewrite H1, H2. cbn [cond_Zopp].
      pose proof (digits2_pos_bounds m) as [_ Hhi'].
      assert (2 ^ Z.pos (digits2_pos m) <= 2 ^ 53) by (apply Z.pow_le_mono_r; lia).
      assert (2 ^ 53 <= 2 ^ (1 - e)) by (apply Z.pow_le_mono_r; lia).
      replace (2 - e) with (1 + (1 - e)) by lia.
      replace (1 - e) with (1 + - e) in * by lia.
      rewrite !pow2_add in * by lia. change (2 ^ 1) with 2 in *.
      pose proof (pow2_pos (- e) ltac:(lia)).
      destruct s; cbn [cond_Zopp]; lia. }
    assert (HdM : Zdigits2 M + e <= 2).
    { rewrite Zdigits2_abs.
      pose proof (Zdigits2_upper (Z.abs M) (2 - e) ltac:(lia) ltac:(lia) HM). lia. }
    destruct (binary_normalize_spec M e false) as [Hval Hfin].
    split; [exact Hval|]. apply Hfin.
    rewrite fexp_eq. unfold prec, emax. lia.
Qed.

(** [(x + 1) / 2] for [x] between -1.0 and 1.0 is a finite binary64
    number. *)
Lemma in_range_rescales x : in_range x = true -> rescales x = true.
Proof.
  unfold in_range, rescales, rescaled.
  intros [[Hv Hlo]%andb_prop Hhi]%andb_prop.
  change (of_int 1) with one. change (of_int 2) with two.
  apply andb_true_intro. split; [apply SFdiv_valid|].
  destruct (add_one_spec x Hv Hlo Hhi) as [Hv1 Hf1].
  destruct (add x one) as [s|s| |s m e]; try discriminate.
  - reflexivity.
  - destruct (valid_digits _ _ _ Hv1). apply SFdiv_finite.
    change (digits2_pos 4503599627370496) with 53%positive. lia.
Qed.

(** *** The laws the comparison slider relies on *)

Lemma of_int_1 : of_int 1 = one.
Proof. reflexivity. Qed.

Lemma digits2_pos_iter (m k : positive) :
  Z.pos (digits2_pos (Pos.iter xO m k)) = Z.pos (digits2_pos m) + Z.pos k.
Proof.
  induction k as [|k IH] using Pos.peano_ind.
  - cbn [Pos.iter digits2_pos]. lia.
  - rewrite Pos.iter_succ. cbn [digits2_pos]. lia.
Qed.

Lemma mul_pow2_52 (m : positive) :
  (m * 4503599627370496)%positive = Pos.iter xO m 52.
Proof. rewrite Pos.mul_comm. reflexivity. Qed.

Lemma digits2_pos_shift52 (m : positive) :
  Z.pos (digits2_pos (m * 4503599627370496)) = Z.pos (digits2_pos m) + 52.
Proof. rewrite mul_pow2_52. apply digits2_pos_iter. Qed.

Lemma shr_shift52 (m : positive) :
  SpecFloat.iter_pos shr_1 52 (Build_shr_record (Z.pos (m * 4503599627370496)) false false)
  = Build_shr_record (Z.pos m) false false.
Proof.
  rewrite Pos.mul_comm. reflexivity.
Qed.

(** Multiplying by 1.0 changes nothing. *)
Lemma mul_one (x : float64) : valid x = true -> mul x one = x.
Proof.
  destruct x as [s|s| |s m e]; try reflexivity.
  - intros _. cbn. by destruct s.
  - intros _. cbn. by destruct s.
  - unfold valid, valid_binary, bounded, canonical_mantissa.
    intros Hv. apply andb_prop in Hv as [Hc He].
    apply Z.eqb_eq in Hc. apply Z.leb_le in He.
    unfold mul, one, SFmul, binary_round_aux.
    unfold shr_fexp at 1. unfold Zdigits2.
    rewrite digits2_pos_shift52.
    replace (Z.pos (digits2_pos m) + 52 + (e + -52))
      with (Z.pos (digits2_pos m) + e) by lia.
    rewrite Hc.
    replace (e - (e + -52)) with 52 by lia.
    unfold shr_record_of_loc, shr. rewrite shr_shift52.
    cbn [shr_m shr_r shr_s loc_of_shr_record round_nearest_even].
    unfold shr_fexp, Zdigits2.
    replace (e + -52 + 52) with e by lia.
    rewrite Hc, Z.sub_diag. cbn [shr shr_record_of_loc shr_m].
    apply Z.leb_le in He. unfold prec, emax in *. rewrite He.
    by destruct s.
Qed.

Lemma eqb_refl (x : float64) : is_finite x = true -> eqb x x = true.
Proof.
  destruct x as [s|s| |s m e]; try discriminate; intros _.
  - reflexivity.
  - unfold eqb, SFeqb, SFcompare.
    destruct s; rewrite Z.compare_refl, Pos.compare_cont_refl; reflexivity.
Qed.

(** A finite number times a zero is a zero. *)
Lemma mul_zero (x : float64) (sg : bool) :
  is_finite x = true -> exists sg', mul x (S754_zero sg) = S754_zero sg'.
Proof.
  destruct x as [s|s| |s m e]; try discriminate; intros _; cbn; eauto.
Qed.

(** Adding a zero to a finite number gives a number equal to it. *)
Lemma add_zero_r (x : float64) (sg : bool) :
  is_finite x = true -> eqb (add x (S754_zero sg)) x = true.
Proof.
  destruct x as [s|s| |s m e]; try discriminate; intros Hx.
  - by destruct s, sg.
  - change (add (S754_finite s m e) (S754_zero sg)) with (S754_finite s m e).
    by apply eqb_refl.
Qed.

Lemma add_zero_l (x : float64) (sg : bool) :
  is_finite x = true -> eqb (add (S754_zero sg) x) x = true.
Proof.
  destruct x as [s|s| |s m e]; try discriminate; intros Hx.
  - by destruct s, sg.
  - change (add (S754_zero sg) (S754_finite s m e)) with (S754_finite s m e).
    by apply eqb_refl.
Qed.

(** With the slider at 0.0 an element of the blend is the rescaled source
    element, with the slider at 1.0 the rescaled generated element. *)
Lemma blend_at_zero (x y : float64) :
  rescales x = true -> rescales y = true ->
  eqb (blend zero x y) (rescaled x) = true.
Proof.
  unfold rescales, blend. fold (rescaled x) (rescaled y).
  intros [Hvx Hfx]%andb_prop [_ Hfy]%andb_prop.
  change (sub (of_int 1) zero) with one. unfold zero.
  rewrite (mul_one _ Hvx).
  destruct (mul_zero (rescaled y) false Hfy) as [sg ->].
  by apply add_zero_r.
Qed.

Lemma blend_at_one (x y : float64) :
  rescales x = true -> rescales y = true ->
  eqb (blend one x y) (rescaled y) = true.
Proof.
  unfold rescales, blend. fold (rescaled x) (rescaled y).
  intros [_ Hfx]%andb_prop [Hvy Hfy]%andb_prop.
  change (sub (of_int 1) one) with (S754_zero false).
  rewrite (mul_one _ Hvy).
  destruct (mul_zero (rescaled x) false Hfx) as [sg ->].
  by apply add_zero_l.
Qed.

Lemma data_rescale (a : ndarray) : data (rescale a) = map rescaled (data a).
Proof.
  unfold rescale, div_scalar, add_scalar, map_array. cbn [data].
  rewrite map_map. reflexivity.
Qed.

Lemma zip_data_lookup (f : float64 -> float64 -> float64) l k i x y :
  l !! i = Some x -> k !! i = Some y -> zip_data f l k !! i = Some (f x y).
Proof.
  revert k i. induction l as [|a l IH]; intros [|b k] [|i]; cbn;
    try discriminate.
  - by intros [= ->] [= ->].
  - apply IH.
Qed.

Lemma blended_at_zero (l k : list float64) :
  length l = length k ->
  Forall (fun x => rescales x = true) l ->
  Forall (fun x => rescales x = true) k ->
  Forall2 (fun x y => eqb x y = true)
    (zip_data (blend zero) l k) (map rescaled l).
Proof.
  intros Hlen Hl. revert k Hlen.
  induction Hl as [|x l Hx Hl IH]; intros [|y k] Hlen Hk;
    try discriminate; cbn; constructor.
  - apply blend_at_zero; [done|]. by inversion Hk.
  - apply IH; [by injection Hlen|by inversion Hk].
Qed.

Lemma blended_at_one (l k : list float64) :
  length l = length k ->
  Forall (fun x => rescales x = true) l ->
  Forall (fun x => rescales x = true) k ->
  Forall2 (fun x y => eqb x y = true)
    (zip_data (blend one) l k) (map rescaled k).
Proof.
  intros Hlen Hl. revert k Hlen.
  induction Hl as [|x l Hx Hl IH]; intros [|y k] Hlen Hk;
    try discriminate; cbn; constructor.
  - apply blend_at_one; [done|]. by inversion Hk.
  - apply IH; [by injection Hlen|by inversion Hk].
Qed.
(** ** Facts of broadcasting *)

Lemma broadcast_rev_same s : broadcast_rev s s = Some s.
Proof.
  induction s as [|d s IH]; [reflexivity|].
  cbn. rewrite IH, Nat.eqb_refl. reflexivity.
Qed.

Lemma broadcast_shapes_same s : broadcast_shapes s s = Some s.
Proof.
  unfold broadcast_shapes. rewrite broadcast_rev_same. cbn.
  by rewrite reverse_involutive.
Qed.

(** An array indexes itself: no index is replaced by 0 unless it is 0. *)
Lemma own_index rsh p :
  zip_with (fun d i => if (d =? 1)%nat then 0%nat else i) rsh (unravel_rev rsh p)
  = unravel_rev rsh p.
Proof.
  revert p. induction rsh as [|d rsh IH]; intros p; [reflexivity|].
  cbn [unravel_rev zip_with]. rewrite IH. f_equal.
  destruct (Nat.eqb_spec d 1%nat) as [->|]; [|reflexivity].
  symmetry. apply Nat.mod_1_r.
Qed.

Lemma ravel_unravel rsh p :
  (p < size_of rsh)%nat -> ravel_rev rsh (unravel_rev rsh p) = p.
Proof.
  revert p. induction rsh as [|d rsh IH]; intros p Hp.
  - cbn in *. lia.
  - change (size_of (d :: rsh)) with (d * size_of rsh)%nat in Hp.
    cbn [unravel_rev ravel_rev].
    destruct (Nat.eq_dec d 0%nat) as [->|Hd]; [lia|].
    rewrite IH.
    + rewrite Nat.add_comm. symmetry. apply Nat.div_mod_eq.
    + apply Nat.Div0.div_lt_upper_bound. exact Hp.
Qed.

Lemma size_of_app l k : size_of (l ++ k) = (size_of l * size_of k)%nat.
Proof.
  unfold size_of. induction l as [|x l IH]; cbn; [lia|]. rewrite IH. lia.
Qed.

Lemma size_of_reverse sh : size_of (reverse sh) = size_of sh.
Proof.
  induction sh as [|d sh IH]; [reflexivity|].
  rewrite reverse_cons, size_of_app, IH.
  change (size_of [d]) with (d * 1)%nat.
  change (size_of (d :: sh)) with (d * size_of sh)%nat. lia.
Qed.

Lemma broadcast_item_own a p :
  (p < size_of (shape a))%nat ->
  broadcast_item a (shape a) p = nth p (data a) S754_nan.
Proof.
  intros Hp. unfold broadcast_item.
  rewrite own_index, ravel_unravel; [reflexivity|].
  by rewrite size_of_reverse.
Qed.

Lemma zip_data_nth (f : float64 -> float64 -> float64) l k :
  length l = length k ->
  map (fun p => f (nth p l S754_nan) (nth p k S754_nan)) (seq 0 (length l))
  = zip_data f l k.
Proof.
  revert k. induction l as [|x l IH]; intros [|y k] Hlen;
    try discriminate; [reflexivity|].
  cbn [length seq map zip_data nth]. f_equal.
  rewrite <- seq_shift, map_map. cbn [nth]. apply IH. by injection Hlen.
Qed.

(** Two arrays of one shape are combined element by element. *)
Lemma broadcast_same_shape f a b :
  well_formed a -> well_formed b -> shape a = shape b ->
  broadcast f a b = Some (mk_ndarray (shape a) (zip_data f (data a) (data b))).
Proof.
  unfold well_formed. intros Ha Hb Hsh.
  assert (Hlen : length (data a) = length (data b))
    by (rewrite Ha, Hb, Hsh; reflexivity).
  unfold broadcast. rewrite <- Hsh, broadcast_shapes_same.
  cbn [mbind option_bind]. do 2 f_equal.
  rewrite <- (zip_data_nth f _ _ Hlen), <- Ha.
  apply map_ext_in. intros p Hp%in_seq.
  assert (Hpa : (p < size_of (shape a))%nat) by lia.
  rewrite (broadcast_item_own a _ Hpa).
  unfold broadcast_item at 1.
  rewrite Hsh, own_index, ravel_unravel; [reflexivity|].
  rewrite size_of_reverse, <- Hsh. exact Hpa.
Qed.

Lemma well_formed_map_array f a : well_formed a -> well_formed (map_array f a).
Proof. unfold well_formed, map_array. cbn. by rewrite length_map. Qed.

(** *** Broadcasting reads existing elements *)

Lemma broadcast_rev_nil_r s : broadcast_rev s [] = Some s.
Proof. by destruct s. Qed.

Lemma size_of_cons d sh : size_of (d :: sh) = (d * size_of sh)%nat.
Proof. reflexivity. Qed.

(** The position that a broadcast result reads in one of its operands
    lies in that operand. *)
Lemma broadcast_index_l rsa : forall rsb rsh p,
  broadcast_rev rsa rsb = Some rsh ->
  (p < size_of rsh)%nat ->
  (ravel_rev rsa
     (zip_with (fun d i => if (d =? 1)%nat then 0%nat else i) rsa
        (unravel_rev rsh p)) < size_of rsa)%nat.
Proof.
  induction rsa as [|d1 rsa IH]; intros rsb rsh p Hb Hp.
  - cbn. lia.
  - assert (Hstep : forall d s' rsb',
              broadcast_rev rsa rsb' = Some s' ->
              (d1 = 1 \/ d = d1)%nat ->
              (p < size_of (d :: s'))%nat ->
              (ravel_rev (d1 :: rsa)
                 (zip_with (fun d i => if (d =? 1)%nat then 0%nat else i)
                    (d1 :: rsa) (unravel_rev (d :: s') p))
               < size_of (d1 :: rsa))%nat).
    { intros d s' rsb' Hb' Hd Hp'. rewrite size_of_cons in Hp'.
      assert (Hd0 : d <> 0%nat) by (intros ->; lia).
      assert (Hq : (p / d < size_of s')%nat)
        by (apply Nat.Div0.div_lt_upper_bound; lia).
      specialize (IH rsb' s' (p / d)%nat Hb' Hq).
      cbn [unravel_rev zip_with ravel_rev]. rewrite size_of_cons.
      destruct (Nat.eqb_spec d1 1%nat) as [->|Hne].
      - lia.
      - destruct Hd as [->| ->]; [done|].
        pose proof (Nat.mod_upper_bound p d1 Hd0). nia. }
    destruct rsb as [|d2 rsb].
    + cbn in Hb. injection Hb as <-.
      apply (Hstep d1 rsa []); [apply broadcast_rev_nil_r|by right|exact Hp].
    + cbn in Hb.
      destruct (broadcast_rev rsa rsb) as [s'|] eqn:Hb'; [|discriminate].
      destruct (Nat.eqb_spec d1 d2) as [->|Hne].
      * injection Hb as <-. by apply (Hstep d2 s' rsb); [|right|].
      * destruct (Nat.eqb_spec d1 1%nat) as [->|Hne1].
        -- injection Hb as <-. by apply (Hstep d2 s' rsb); [|left|].
        -- destruct (Nat.eqb_spec d2 1%nat) as [->|Hne2]; [|discriminate].
           injection Hb as <-. by apply (Hstep d1 s' rsb); [|right|].
Qed.

Lemma broadcast_rev_comm s1 : forall s2,
  broadcast_rev s1 s2 = broadcast_rev s2 s1.
Proof.
  induction s1 as [|d1 s1 IH]; intros [|d2 s2]; try reflexivity.
  cbn. rewrite (IH s2). destruct (broadcast_rev s2 s1); [|reflexivity].
  destruct (Nat.eqb_spec d1 d2) as [->|Hne].
  - by rewrite Nat.eqb_refl.
  - destruct (Nat.eqb_spec d2 d1) as [->|_]; [done|].
    destruct (Nat.eqb_spec d1 1%nat) as [->|], (Nat.eqb_spec d2 1%nat) as [->|];
      done.
Qed.

Lemma broadcast_shapes_comm s1 s2 :
  broadcast_shapes s1 s2 = broadcast_shapes s2 s1.
Proof. unfold broadcast_shapes. by rewrite broadcast_rev_comm. Qed.

(** Every element of a broadcast of a well-formed array is an element of
    the array. *)
Lemma broadcast_item_elem a b sh p :
  well_formed a ->
  broadcast_shapes (shape a) b = Some sh ->
  (p < size_of sh)%nat ->
  broadcast_item a sh p ∈ data a.
Proof.
  unfold well_formed, broadcast_shapes. intros Hwf Hb Hp.
  destruct (broadcast_rev (reverse (shape a)) (reverse b)) as [rsh|] eqn:Hr;
    [|discriminate].
  injection Hb as <-.
  unfold broadcast_item. rewrite reverse_involutive.
  rewrite size_of_reverse in Hp.
  pose proof (broadcast_index_l _ _ _ p Hr Hp) as Hi.
  rewrite size_of_reverse, <- Hwf in Hi.
  apply list_elem_of_In, nth_In. exact Hi.
Qed.

Lemma broadcast_to_Forall (P : float64 -> Prop) a b sh :
  well_formed a ->
  broadcast_shapes (shape a) b = Some sh ->
  Forall P (data a) ->
  Forall P (data (broadcast_to a sh)).
Proof.
  intros Hwf Hb Ha. unfold broadcast_to. cbn [data].
  apply Forall_fmap, Forall_forall. intros p Hp%elem_of_seq. cbn.
  rewrite Forall_forall in Ha. apply Ha.
  apply (broadcast_item_elem a b sh p Hwf Hb). lia.
Qed.

Lemma broadcast_to_length a sh : length (data (broadcast_to a sh)) = size_of sh.
Proof. unfold broadcast_to. cbn. by rewrite length_map, length_seq. Qed.

Lemma map_nth_seq (l : list float64) :
  map (fun p => nth p l S754_nan) (seq 0 (length l)) = l.
Proof.
  induction l as [|x l IH]; [reflexivity|].
  cbn [length seq map nth]. f_equal.
  rewrite <- seq_shift, map_map. exact IH.
Qed.

(** Broadcasting a well-formed array to its own shape gives the array. *)
Lemma broadcast_to_own a : well_formed a -> broadcast_to a (shape a) = a.
Proof.
  intros Hwf. destruct a as [sh l]. unfold well_formed in Hwf. cbn in Hwf.
  unfold broadcast_to. cbn [shape]. f_equal.
  rewrite <- (map_nth_seq l) at 2. rewrite Hwf.
  apply map_ext_in. intros p Hp%in_seq.
  apply (broadcast_item_own (mk_ndarray sh l)). cbn. lia.
Qed.

(** *** The integer part *)

Lemma trunc_integer_part x : is_finite x = true -> integer_part x (trunc x).
Proof.
  destruct x as [sg|sg| |sg m e]; try discriminate; intros _; [reflexivity|].
  unfold trunc, integer_part.
  assert (Hm : 0 < Z.pos m) by lia.
  destruct (Z.le_gt_cases 0 e) as [He|He].
  - rewrite Z.shiftl_mul_pow2 by exact He.
    rewrite (Z.max_r 0 e), (Z.max_l 0 (- e)) by lia.
    assert (0 < 2 ^ e) by (apply Z.pow_pos_nonneg; lia).
    change (2 ^ 0) with 1.
    destruct sg; cbn [cond_Zopp];
      rewrite ?Z.abs_opp, Z.abs_eq by nia; repeat split; nia.
  - rewrite Z.shiftl_div_pow2 by lia.
    rewrite (Z.max_l 0 e), (Z.max_r 0 (- e)) by lia.
    assert (Hp : 0 < 2 ^ (- e)) by (apply Z.pow_pos_nonneg; lia).
    change (2 ^ 0) with 1.
    pose proof (Z.div_mod (Z.pos m) (2 ^ (- e)) ltac:(lia)) as Hdm.
    pose proof (Z.mod_pos_bound (Z.pos m) (2 ^ (- e)) Hp) as Hmod.
    assert (Hq : 0 <= Z.pos m / 2 ^ (- e)) by (apply Z.div_pos; lia).
    destruct sg; cbn [cond_Zopp];
      rewrite ?Z.abs_opp, Z.abs_eq by lia; repeat split; nia.
Qed.

Lemma integer_part_unique x n n' :
  integer_part x n -> integer_part x n' -> n = n'.
Proof.
  destruct x as [sg|sg| |sg m e]; cbn; try done; [congruence|].
  set (a := 2 ^ Z.max 0 (- e)). set (c := Z.pos m * 2 ^ Z.max 0 e).
  assert (Ha : 0 < a) by (apply Z.pow_pos_nonneg; lia).
  intros (Hs & Hl & Hu) (Hs' & Hl' & Hu').
  assert (Z.abs n = Z.abs n') by nia.
  destruct sg; lia.
Qed.

Lemma integer_part_trunc x n : integer_part x n -> n = trunc x.
Proof.
  intros Hn. apply (integer_part_unique x); [exact Hn|].
  apply trunc_integer_part. by destruct x.
Qed.

Lemma byte_of_uint8_to_N z :
  0 <= z < 256 -> Z.of_N (Byte.to_N (byte_of_uint8 z)) = z.
Proof.
  intros Hz. unfold byte_of_uint8.
  destruct (Byte.of_N (Z.to_N z)) as [b|] eqn:E.
  - apply Byte.to_of_N in E. rewrite E. lia.
  - apply Byte.of_N_None_iff in E. lia.
Qed.

(** The conversion to [uint8], said with the integer part: the integer
    part itself when it lies in [0, 256); on x86-64, its residue modulo
    256 when it is an int32, and 0 for everything else. *)
Lemma astype_uint8_spec x :
  (forall n, integer_part x n -> 0 <= n < 256 -> astype_uint8 x = n)
  /\ (forall n, integer_part x n -> - 2 ^ 31 <= n < 2 ^ 31 ->
        astype_uint8 x = n mod 256)
  /\ ((forall n, integer_part x n -> n < - 2 ^ 31 \/ 2 ^ 31 <= n) ->
        astype_uint8 x = 0)
  /\ 0 <= astype_uint8 x < 256.
Proof.
  unfold astype_uint8. repeat split.
  - intros n ->%integer_part_trunc Hn.
    destruct (Z.leb_spec (- 2 ^ 31) (trunc x)), (Z.ltb_spec (trunc x) (2 ^ 31));
      cbn [andb]; try lia.
    apply Z.mod_small. lia.
  - intros n ->%integer_part_trunc Hn.
    destruct (Z.leb_spec (- 2 ^ 31) (trunc x)), (Z.ltb_spec (trunc x) (2 ^ 31));
      cbn [andb]; lia.
  - intros Hout.
    destruct (Z.leb_spec (- 2 ^ 31) (trunc x)), (Z.ltb_spec (trunc x) (2 ^ 31));
      cbn [andb]; try reflexivity.
    destruct (is_finite x) eqn:Hf.
    + destruct (Hout _ (trunc_integer_part x Hf)); lia.
    + destruct x; try discriminate; reflexivity.
  - destruct (_ && _); [|lia].
    apply Z.mod_pos_bound. lia.
  - destruct (_ && _); [|lia].
    apply Z.mod_pos_bound. lia.
Qed.

(** ** Running the script, piece by piece *)

Section Runs.
Context `{image_colorization}.

Ltac run :=
  cbv [Home bind emit ret call with_
       st_set_page_config st_title st_sidebar_header st_sidebar_info
       st_sidebar_markdown st_columns st_file_uploader st_button st_slider
       st_info st_markdown app].

Lemma if_not_in_run k v s :
  if_not_in k v s = (Ok tt, set_default k v s, []).
Proof.
  unfold if_not_in, set_default, bind, contains, setattr, ret.
  destruct (bool_decide _); reflexivity.
Qed.

Lemma initialise_run s : initialise s = (Ok tt, init_session s, []).
Proof.
  unfold initialise, bind. rewrite !if_not_in_run. reflexivity.
Qed.

(** The script is its header, the part that depends on the uploads, and
    its footer; an exception skips the footer. *)
Lemma Home_run w s :
  Home w s =
  match uploaded_src w, uploaded_tar w with
  | Some src_image, Some tar_image =>
      match analysis w src_image tar_image (init_session s) with
      | (Ok _, s', t) => (Ok tt, s', header ++ t ++ footer)
      | (Raise e, s', t) => (Raise e, s', header ++ t)
      end
  | _, _ => (Ok tt, init_session s, header ++ Info upload_prompt :: footer)
  end.
Proof.
  run. rewrite initialise_run.
  destruct (uploaded_src w), (uploaded_tar w); try reflexivity.
  destruct (analysis _ _ _ _) as [[[[]|e] s'] t]; reflexivity.
Qed.

Lemma analysis_run w a b s p :
  s !! "processed" = Some p ->
  analysis w a b s =
  match fires (button_clicked w) p with
  | Raise e => (Raise e, s, [Button "Process Images"])
  | Ok true =>
      match process_and_render a b s with
      | (Ok _, s1, t1) =>
          match comparison w s1 with
          | (r, s2, t2) =>
              (r, s2,
               Button "Process Images"
               :: Enter (Spinner "Processing images...")
               :: t1 ++ Leave (Spinner "Processing images...") :: t2)
          end
      | (Raise e, s1, t1) =>
          (Raise e, s1,
           Button "Process Images"
           :: Enter (Spinner "Processing images...")
           :: t1 ++ [Leave (Spinner "Processing images...")])
      end
  | Ok false =>
      match comparison w s with
      | (r, s2, t2) => (r, s2, Button "Process Images" :: t2)
      end
  end.
Proof.
  intros Hp.
  cbv [analysis fires py_not bind st_button emit ret getattr call with_].
  destruct (button_clicked w).
  - destruct (process_and_render a b s) as [[[[]|e] s1] t1].
    + destruct (comparison w s1) as [[r s2] t2].
      cbn [app]. rewrite <- app_assoc. reflexivity.
    + reflexivity.
  - rewrite Hp. destruct (truth_value p) as [[]|e]; cbn [negb].
    + destruct (comparison w s) as [[r s2] t2]. reflexivity.
    + destruct (process_and_render a b s) as [[[[]|e] s1] t1].
      * destruct (comparison w s1) as [[r s2] t2].
        cbn [app]. rewrite <- app_assoc. reflexivity.
      * reflexivity.
    + reflexivity.
Qed.

Lemma gen_img_bytes_spec gen :
  gen_img_bytes gen = map raw_pixel_byte (data gen).
Proof.
  unfold gen_img_bytes, gen_img, mul_scalar, rescale, div_scalar,
    add_scalar, map_array. cbn [data].
  rewrite !map_map. reflexivity.
Qed.

Ltac destruct_calls :=
  repeat match goal with
    | |- context [match ?c with Ok _ => _ | Raise _ => _ end] =>
        let E := fresh "E" in destruct c as [?|?] eqn:E
    | |- context [let (_, _) := ?c in _] => is_var c; destruct c
    end.

Lemma render_results_run a b fig x y A B C s :
  exists r t,
    render_results a b fig x y A B C s = (r, s, t) /\
    process_images_calls t = [] /\
    file_uploaders t = [] /\
    (exists t', displayed t =
       Pyplot (External fig) :: Metric "SSIM" [Field x ".4f"]
       :: Metric "PSNR" [Field y ".2f"; Text " dB"] :: t') /\
    (download_buttons t = [] \/ download_buttons t = expected_downloads a b B) /\
    (r = Ok tt ->
     download_buttons t = expected_downloads a b B /\
     exists diff_fig mean_diff gen_channels tar_channels gen_lab tar_lab,
       plot_difference_map (rescale C) (rescale B) = Ok (diff_fig, mean_diff) /\
       plot_color_channels (rescale B) "Generated Image Color Channels" = Ok gen_channels /\
       plot_color_channels (rescale C) "Target Image Color Channels" = Ok tar_channels /\
       plot_lab_channels (rescale B) "Generated Image in LAB Color Space" = Ok gen_lab /\
       plot_lab_channels (rescale C) "Target Image in LAB Color Space" = Ok tar_lab /\
       displayed t =
         expected_display fig x y A B C diff_fig mean_diff
           gen_channels tar_channels gen_lab tar_lab).
Proof.
  unfold expected_downloads. rewrite <- gen_img_bytes_spec.
  cbv [render_results bind emit ret call with_ st_pyplot st_subheader
       st_columns st_metric st_info st_write st_download_button].
  destruct_calls.
  all: cbn [app].
  all: eexists _, _; split; [reflexivity|].
  all: cbn.
  all: repeat split; eauto; try discriminate.
  eexists _, _, _, _, _, _. repeat split.
Qed.

Lemma process_and_render_raise a b e s :
  process_images a b = Raise e ->
  process_and_render a b s = (Raise e, s, [ProcessImages a b]).
Proof.
  intros E. cbv [process_and_render bind emit call]. rewrite E. reflexivity.
Qed.

Lemma process_and_render_ok a b fig x y A B C s :
  process_images a b = Ok (fig, x, y, A, B, C) ->
  process_and_render a b s =
  match render_results a b fig x y A B C (assigned s A B C) with
  | (r, s', t) => (r, s', ProcessImages a b :: t)
  end.
Proof.
  intros E. cbv [process_and_render bind emit call setattr]. rewrite E.
  fold (assigned s A B C).
  destruct (render_results _ _ _ _ _ _ _ _ _) as [[[[]|e] s'] t];
    reflexivity.
Qed.

Lemma zip_data_map (f : float64 -> float64 -> float64) g h l k :
  zip_data f (map g l) (map h k) = zip_data (fun x y => f (g x) (h y)) l k.
Proof.
  revert k. induction l as [|x l IH]; intros [|y k]; cbn; try reflexivity.
  rewrite IH. reflexivity.
Qed.

Lemma zip_data_seq (f : float64 -> float64 -> float64)
    (g h : nat -> float64) (l : list nat) :
  zip_data f (map g l) (map h l) = map (fun p => f (g p) (h p)) l.
Proof. induction l as [|p l IH]; cbn; [reflexivity|]. by rewrite IH. Qed.

(** An operation that keeps [nan] is applied before or after
    broadcasting alike. *)
Lemma broadcast_item_map f a sh p :
  f S754_nan = S754_nan ->
  broadcast_item (map_array f a) sh p = f (broadcast_item a sh p).
Proof.
  intros Hf. unfold broadcast_item, map_array. cbn [shape data].
  rewrite <- Hf at 1. apply map_nth.
Qed.

Lemma mul_nan c : mul S754_nan c = S754_nan.
Proof. by destruct c. Qed.

(** The slider block on two stored arrays: [ValueError] of [+] when the
    shapes do not go together, [TypeError] of [imshow] when the blend is
    no image, and the figure of the blend otherwise. *)
Lemma comparison_slider_stored w s A B :
  s !! "src" = Some (PArr A) ->
  s !! "gen" = Some (PArr B) ->
  comparison_slider w s =
  match broadcast_shapes (shape A) (shape B) with
  | None =>
      (Raise ValueError, s,
       [Subheader "Image Comparison Slider"; slider_event])
  | Some sh =>
      if image_shape sh
      then
        (Ok tt, s,
         [Subheader "Image Comparison Slider";
          slider_event;
          Pyplot (slider_figure
                    (NpArray (blended (slider_value w)
                                (broadcast_to A sh) (broadcast_to B sh))));
          Write [Text "Showing "; Field (slider_value w) ".0%";
                 Text " of the generated image."]])
      else
        (Raise TypeError, s,
         [Subheader "Image Comparison Slider"; slider_event])
  end.
Proof.
  intros Hs Hg.
  cbv [comparison_slider bind emit ret call getattr st_subheader st_slider
       st_pyplot st_write operand].
  rewrite Hs, Hg.
  cbv [np_add np_mul_scalar np_div_scalar np_add_scalar np_map broadcast].
  change (shape (map_array _ (map_array _ (map_array _ A)))) with (shape A).
  change (shape (map_array _ (map_array _ (map_array _ B)))) with (shape B).
  destruct (broadcast_shapes (shape A) (shape B)) as [sh|]; [|reflexivity].
  cbn [mbind option_bind imshow shape].
  destruct (image_shape sh); [|reflexivity].
  cbn [app]. unfold blended, broadcast_to. cbn [shape data].
  rewrite zip_data_seq.
  match goal with
  | |- context [map ?f (seq 0 (size_of sh))] =>
      lazymatch f with
      | context [map_array] =>
          replace (map f (seq 0 (size_of sh)))
            with (map (fun p => blend (slider_value w)
                                  (broadcast_item A sh p)
                                  (broadcast_item B sh p))
                    (seq 0 (size_of sh)))
      end
  end; [reflexivity|].
  apply map_ext. intros p.
  rewrite !broadcast_item_map; try reflexivity; apply mul_nan.
Qed.

(** Whatever is stored, the slider block leaves the session state alone
    and calls no model; it shows its figure when it ends normally and
    nothing otherwise. *)
Lemma comparison_slider_run w s :
  exists r t,
    comparison_slider w s = (r, s, t) /\
    process_images_calls t = [] /\
    file_uploaders t = [] /\
    download_buttons t = [] /\
    ((r = Ok tt /\ exists img, displayed t = [Pyplot (slider_figure img)]) \/
     ((exists e, r = Raise e) /\ displayed t = [])).
Proof.
  cbv [comparison_slider bind emit ret call getattr st_subheader
       st_slider st_pyplot st_write].
  destruct (s !! "src") as [v1|]; [|eexists _, _; cbn; eauto 10].
  destruct (operand v1) as [n1|e]; [|eexists _, _; cbn; eauto 10].
  destruct (s !! "gen") as [v2|]; [|eexists _, _; cbn; eauto 10].
  destruct (operand v2) as [n2|e]; [|eexists _, _; cbn; eauto 10].
  destruct (np_add _ _) as [img|e]; [|eexists _, _; cbn; eauto 10].
  destruct (imshow img) as [[]|e]; eexists _, _; cbn; eauto 10.
Qed.

Lemma comparison_run w s :
  exists r t,
    comparison w s = (r, s, t) /\
    process_images_calls t = [] /\
    file_uploaders t = [] /\
    download_buttons t = [] /\
    (displayed t = [] \/ exists img, displayed t = [Pyplot (slider_figure img)]).
Proof.
  cbv [comparison bind call getattr].
  destruct (s !! "processed") as [p|]; [|eexists _, _; cbn; eauto 10].
  destruct (truth_value p) as [[]|e]; [| eexists _, _; cbn; eauto 10 ..].
  destruct (comparison_slider_run w s)
    as (r & t & -> & Hc & Hu & Hd & [[_ Him]|[_ Hno]]);
    exists r, t; cbn [app]; eauto 10.
Qed.

(** The body of the spinner block: the call, then either the exception or
    the assignments followed by the rendering. *)
Lemma process_and_render_run a b s :
  exists r s' t,
    process_and_render a b s = (r, s', ProcessImages a b :: t) /\
    process_images_calls t = [] /\
    file_uploaders t = [] /\
    ((exists e, process_images a b = Raise e /\ r = Raise e /\ s' = s /\ t = [])
     \/
     (exists fig x y A B C,
        process_images a b = Ok (fig, x, y, A, B, C) /\
        s' = assigned s A B C /\
        render_results a b fig x y A B C (assigned s A B C) = (r, s', t))).
Proof.
  destruct (process_images a b) as [[[[[[fig x] y] A] B] C]|e] eqn:E.
  - rewrite (process_and_render_ok _ _ _ _ _ _ _ _ _ E).
    destruct (render_results_run a b fig x y A B C (assigned s A B C))
      as (r & t & Hr & Hc & Hu & _).
    rewrite Hr.
    eexists _, _, _. split; [reflexivity|].
    split; [exact Hc|]. split; [exact Hu|].
    right. eexists _, _, _, _, _, _. eauto.
  - rewrite (process_and_render_raise _ _ _ _ E).
    eexists _, _, _. split; [reflexivity|].
    split; [reflexivity|]. split; [reflexivity|]. left. eauto.
Qed.

(** *** The session state *)

Lemma lookup_set_default k v (s : gmap string pyval) k' :
  set_default k v s !! k' =
  match s !! k' with
  | Some x => Some x
  | None => if decide (k = k') then Some v else None
  end.
Proof.
  unfold set_default. case_bool_decide as Hk.
  - destruct (s !! k') eqn:E; [reflexivity|].
    case_decide; [subst|reflexivity].
    rewrite E in Hk. by destruct Hk.
  - destruct (decide (k = k')) as [->|Hne].
    + rewrite lookup_insert_eq. destruct (s !! k') eqn:E; [|reflexivity].
      exfalso. apply Hk. eauto.
    + rewrite lookup_insert_ne by done. by destruct (s !! k').
Qed.

Lemma lookup_init_session (s : gmap string pyval) k :
  init_session s !! k =
  match s !! k with
  | Some x => Some x
  | None => default_value k
  end.
Proof.
  unfold init_session, default_value. rewrite !lookup_set_default.
  destruct (s !! k); [reflexivity|].
  repeat destruct (decide _); congruence.
Qed.

(** *** The block of lines 48-146 *)

Lemma process_images_calls_app t1 t2 :
  process_images_calls (t1 ++ t2) =
  process_images_calls t1 ++ process_images_calls t2.
Proof. apply omap_app. Qed.

Lemma file_uploaders_app t1 t2 :
  file_uploaders (t1 ++ t2) = file_uploaders t1 ++ file_uploaders t2.
Proof. apply omap_app. Qed.

Lemma download_buttons_app t1 t2 :
  download_buttons (t1 ++ t2) = download_buttons t1 ++ download_buttons t2.
Proof. apply omap_app. Qed.

Lemma displayed_app t1 t2 :
  displayed (t1 ++ t2) = displayed t1 ++ displayed t2.
Proof. apply omap_app. Qed.

Lemma analysis_fired w a b s :
  processing_fires w s = true ->
  analysis w a b (init_session s) =
  match process_and_render a b (init_session s) with
  | (Ok _, s1, t1) =>
      match comparison w s1 with
      | (r, s2, t2) =>
          (r, s2,
           Button "Process Images"
           :: Enter (Spinner "Processing images...")
           :: t1 ++ Leave (Spinner "Processing images...") :: t2)
      end
  | (Raise e, s1, t1) =>
      (Raise e, s1,
       Button "Process Images"
       :: Enter (Spinner "Processing images...")
       :: t1 ++ [Leave (Spinner "Processing images...")])
  end.
Proof.
  unfold processing_fires. intros Hf.
  destruct (init_session s !! "processed") as [p|] eqn:Hp; [|discriminate].
  rewrite (analysis_run _ _ _ _ _ Hp).
  destruct (fires _ _) as [[]|]; [reflexivity|discriminate..].
Qed.

(** Whatever the widgets and the module do, the block leaves the
    uploaders alone, writes the session state at lines 52-55 only, and
    offers either no download or the three of line 114-136. *)
Lemma analysis_general w a b s p :
  s !! "processed" = Some p ->
  exists r s' t,
    analysis w a b s = (r, s', t) /\
    file_uploaders t = [] /\
    (s' = s \/ exists A B C, s' = assigned s A B C) /\
    (download_buttons t = [] \/
     exists fig x y A B C,
       process_images a b = Ok (fig, x, y, A, B, C) /\
       download_buttons t = expected_downloads a b B).
Proof.
  intros Hp. rewrite (analysis_run _ _ _ _ _ Hp).
  destruct (fires _ _) as [[]|e].
  - destruct (process_and_render_run a b s)
      as (r & s1 & t1 & -> & _ & Hu & [(e & _ & -> & -> & ->)|Hok]).
    + eexists _, _, _. split; [reflexivity|]. cbn. eauto.
    + destruct Hok as (fig & x & y & A & B & C & E & -> & Hr).
      destruct (render_results_run a b fig x y A B C (assigned s A B C))
        as (r' & t' & Hr' & _ & _ & _ & Hd & _).
      rewrite Hr in Hr'. injection Hr' as <- <-.
      destruct (comparison_run w (assigned s A B C))
        as (r2 & t2 & -> & _ & Hu2 & Hd2 & _).
      assert (Hdl : download_buttons
                      (Button "Process Images"
                       :: Enter (Spinner "Processing images...")
                       :: (ProcessImages a b :: t1)
                          ++ Leave (Spinner "Processing images...") :: t2)
                    = download_buttons t1).
      { change (download_buttons (t1 ++ Leave (Spinner "Processing images...") :: t2)
                = download_buttons t1).
        rewrite download_buttons_app. cbn. fold (download_buttons t2).
        rewrite Hd2. apply app_nil_r. }
      assert (Hul : file_uploaders
                      (Button "Process Images"
                       :: Enter (Spinner "Processing images...")
                       :: (ProcessImages a b :: t1)
                          ++ Leave (Spinner "Processing images...") :: t2)
                    = []).
      { change (file_uploaders (t1 ++ Leave (Spinner "Processing images...") :: t2)
                = []).
        rewrite file_uploaders_app, Hu. cbn. exact Hu2. }
      destruct r.
      * eexists _, _, _. split; [reflexivity|].
        rewrite Hdl, Hul. split; [done|]. split; [eauto|].
        destruct Hd as [Hd|Hd]; [by left|right].
        eexists _, _, _, _, _, _. eauto.
      * eexists _, _, _. split; [reflexivity|].
        split.
        { change (file_uploaders (t1 ++ [Leave (Spinner "Processing images...")]) = []).
          rewrite file_uploaders_app, Hu. reflexivity. }
        split; [eauto|].
        change (download_buttons (t1 ++ [Leave (Spinner "Processing images...")]) = []
                \/ exists fig x y A B C,
                     process_images a b = Ok (fig, x, y, A, B, C) /\
                     download_buttons (t1 ++ [Leave (Spinner "Processing images...")]) =
                     expected_downloads a b B).
        rewrite download_buttons_app. cbn. rewrite app_nil_r.
        destruct Hd as [Hd|Hd]; [by left|right].
        eexists _, _, _, _, _, _. eauto.
  - destruct (comparison_run w s) as (r2 & t2 & -> & _ & Hu2 & Hd2 & _).
    eexists _, _, _. split; [reflexivity|]. cbn.
    fold (file_uploaders t2) (download_buttons t2). eauto.
  - eexists _, _, _. split; [reflexivity|]. cbn. eauto.
Qed.

Lemma lookup_assigned_processed s A B C :
  assigned s A B C !! "processed" = Some (PBool true).
Proof. unfold assigned. by simplify_map_eq. Qed.

Lemma lookup_assigned_src s A B C : assigned s A B C !! "src" = Some (PArr A).
Proof. unfold assigned. by simplify_map_eq. Qed.

Lemma lookup_assigned_gen s A B C : assigned s A B C !! "gen" = Some (PArr B).
Proof. unfold assigned. by simplify_map_eq. Qed.

Lemma lookup_assigned_tar s A B C : assigned s A B C !! "tar" = Some (PArr C).
Proof. unfold assigned. by simplify_map_eq. Qed.

Lemma lookup_assigned_other s A B C k :
  k ∉ session_keys -> assigned s A B C !! k = s !! k.
Proof.
  unfold session_keys, assigned. intros Hk.
  rewrite !lookup_insert_ne; [reflexivity|set_solver..].
Qed.

(** Right after lines 52-55 the slider block always shows the slider. *)
Lemma comparison_assigned w s A B C :
  comparison w (assigned s A B C) = comparison_slider w (assigned s A B C).
Proof.
  cbv [comparison bind getattr call]. rewrite lookup_assigned_processed.
  cbn [truth_value].
  destruct (comparison_slider w (assigned s A B C)) as [[r s'] t].
  reflexivity.
Qed.

Lemma init_session_empty : init_session ∅ = default_session.
Proof.
  apply map_eq. intros k. unfold default_session.
  rewrite lookup_init_session, lookup_empty. unfold default_value.
  repeat case_decide; subst; by simplify_map_eq.
Qed.

(** A run writes the session state at lines 12-19 and, when the model
    returns, at lines 52-55. *)
Lemma Home_final_state w s :
  final_state (Home w s) = init_session s \/
  exists A B C, final_state (Home w s) = assigned (init_session s) A B C.
Proof.
  rewrite Home_run.
  destruct (uploaded_src w) as [a|], (uploaded_tar w) as [b|];
    try (left; reflexivity).
  assert (Hp : is_Some (init_session s !! "processed")).
  { rewrite lookup_init_session. destruct (s !! "processed"); eauto. }
  destruct Hp as [p Hp].
  destruct (analysis_general w a b _ _ Hp) as (r & s' & t & -> & _ & Hs & _).
  destruct r; exact Hs.
Qed.

Lemma buffers_ready_init s :
  buffers_ready s = true -> buffers_ready (init_session s) = true.
Proof.
  unfold buffers_ready, not_none. rewrite !lookup_init_session.
  destruct (s !! "processed") as [[| [] |]|]; try reflexivity.
  destruct (s !! "src") as [[]|], (s !! "gen") as [[]|], (s !! "tar") as [[]|];
    try discriminate; reflexivity.
Qed.

Lemma buffers_ready_assigned s A B C : buffers_ready (assigned s A B C) = true.
Proof.
  unfold buffers_ready, not_none.
  rewrite lookup_assigned_processed, lookup_assigned_src,
    lookup_assigned_gen, lookup_assigned_tar.
  reflexivity.
Qed.
End Runs.

(** ** The properties of the page *)

Section Claims.
Context `{image_colorization}.

(** C1. When both uploads are there and line 48 lets the processing run,
    [process_images] is called once, with the uploaded source and the
    uploaded target in that order; when it returns its six values they
    are bound in order: the figure is the first one shown, the second and
    third values are the SSIM and PSNR metrics, and the last three are
    stored as [src], [gen] and [tar]. *)
Theorem model_call_and_binding (w : widgets) (s : gmap string pyval)
    (src_image tar_image : UploadedFile)
    (fig : Figure) (ssim_value psnr_value : float64) (src gen tar : ndarray) :
  uploaded_src w = Some src_image ->
  uploaded_tar w = Some tar_image ->
  processing_fires w s = true ->
  process_images src_image tar_image =
    Ok (fig, ssim_value, psnr_value, src, gen, tar) ->
  process_images_calls (trace (Home w s)) = [(src_image, tar_image)]
  /\ final_state (Home w s) = assigned (init_session s) src gen tar
  /\ exists rest,
       displayed (trace (Home w s)) =
       Pyplot (External fig)
       :: Metric "SSIM" [Field ssim_value ".4f"]
       :: Metric "PSNR" [Field psnr_value ".2f"; Text " dB"]
       :: rest.
Proof.
  intros Ha Hb Hf Hok.
  rewrite Home_run, Ha, Hb, (analysis_fired _ _ _ _ Hf),
    (process_and_render_ok _ _ _ _ _ _ _ _ _ Hok).
  destruct (render_results_run src_image tar_image fig ssim_value psnr_value
              src gen tar (assigned (init_session s) src gen tar))
    as (r & t & -> & Hc & _ & (rest & Hd) & _).
  set (s1 := assigned (init_session s) src gen tar).
  destruct r as [[]|e].
  - destruct (comparison_run w s1) as (r2 & t2 & -> & Hc2 & _).
    assert (Ht : forall post,
      process_images_calls
        (header ++ (Button "Process Images"
                    :: Enter (Spinner "Processing images...")
                    :: (ProcessImages src_image tar_image :: t)
                       ++ Leave (Spinner "Processing images...") :: t2) ++ post)
      = (src_image, tar_image) :: process_images_calls post).
    { intros post. rewrite !process_images_calls_app. cbn.
      fold (process_images_calls (t ++ Leave (Spinner "Processing images...") :: t2)).
      rewrite process_images_calls_app, Hc. cbn.
      fold (process_images_calls t2). rewrite Hc2. reflexivity. }
    assert (Hdisp : forall post,
      displayed
        (header ++ (Button "Process Images"
                    :: Enter (Spinner "Processing images...")
                    :: (ProcessImages src_image tar_image :: t)
                       ++ Leave (Spinner "Processing images...") :: t2) ++ post)
      = displayed t ++ displayed t2 ++ displayed post).
    { intros post. rewrite !displayed_app. cbn.
      fold (displayed (t ++ Leave (Spinner "Processing images...") :: t2)).
      rewrite displayed_app. cbn. fold (displayed t2).
      rewrite <- app_assoc. reflexivity. }
    destruct r2; unfold trace, final_state; cbn [fst snd].
    + rewrite Ht, Hdisp, Hd. cbn. eauto.
    + rewrite <- (app_nil_r (_ :: _)), Ht, Hdisp, Hd. cbn. eauto.
  - unfold trace, final_state; cbn [fst snd].
    rewrite process_images_calls_app, displayed_app. cbn.
    fold (process_images_calls (t ++ [Leave (Spinner "Processing images...")])).
    fold (displayed (t ++ [Leave (Spinner "Processing images...")])).
    rewrite process_images_calls_app, displayed_app, Hc, Hd. cbn. eauto.
Qed.

(** C2. The session state of the page is one flag and three buffers.  A
    run writes no key but [processed], [src], [gen] and [tar]; started on
    an empty session state it leaves these four keys, with the flag
    [False] and the buffers [None] or else with the flag [True] and three
    arrays; and it keeps the invariant that [processed] is [True] only
    when none of the three buffers is [None]. *)
Theorem session_state_discipline (w : widgets) (s : gmap string pyval) :
  buffers_ready s = true ->
  (forall k, k ∉ session_keys -> final_state (Home w s) !! k = s !! k)
  /\ (s = ∅ ->
      final_state (Home w s) = default_session \/
      exists src gen tar,
        final_state (Home w s) = assigned default_session src gen tar)
  /\ buffers_ready (final_state (Home w s)) = true.
Proof.
  intros Hinv.
  assert (Hother : forall k, k ∉ session_keys -> init_session s !! k = s !! k).
  { intros k Hk. rewrite lookup_init_session.
    destruct (s !! k); [reflexivity|].
    unfold default_value, session_keys in *.
    repeat case_decide; subst; try reflexivity; exfalso; set_solver. }
  destruct (Home_final_state w s) as [-> | (A & B & C & ->)];
    (split; [|split]).
  - exact Hother.
  - intros ->. left. apply init_session_empty.
  - by apply buffers_ready_init.
  - intros k Hk. rewrite lookup_assigned_other by done. by apply Hother.
  - intros ->. right. rewrite init_session_empty. eauto.
  - apply buffers_ready_assigned.
Qed.

(** C3. Nothing in the page catches an exception of the model: when both
    uploads are there, line 48 lets the processing run and
    [process_images] raises, the run ends with that very exception right
    after the call (nothing more is rendered, the footer included), and
    the session state is the one the call found: every value stored
    before the run is still there, and a session state that already had
    the four keys is unchanged. *)
Theorem model_exception_propagates (w : widgets) (s : gmap string pyval)
    (src_image tar_image : UploadedFile) (e : exn) :
  uploaded_src w = Some src_image ->
  uploaded_tar w = Some tar_image ->
  processing_fires w s = true ->
  process_images src_image tar_image = Raise e ->
  Home w s =
    (Raise e, init_session s,
     header ++ [Button "Process Images";
                Enter (Spinner "Processing images...");
                ProcessImages src_image tar_image;
                Leave (Spinner "Processing images...")])
  /\ (forall k v, s !! k = Some v -> init_session s !! k = Some v)
  /\ ((forall k, k ∈ session_keys -> is_Some (s !! k)) -> init_session s = s).
Proof.
  intros Ha Hb Hf He. split; [|split].
  - rewrite Home_run, Ha, Hb, (analysis_fired _ _ _ _ Hf),
      (process_and_render_raise _ _ _ _ He).
    reflexivity.
  - intros k v Hk. rewrite lookup_init_session, Hk. reflexivity.
  - intros Hk. apply map_eq. intros k. rewrite lookup_init_session.
    destruct (s !! k) eqn:E; [reflexivity|].
    unfold default_value. repeat case_decide; try reflexivity; subst.
    all: exfalso; eapply is_Some_None; rewrite <- E; apply Hk;
      unfold session_keys; set_solver.
Qed.

(** C4. The button is not the only trigger.  With both images uploaded,
    a run that finds [processed] absent or [False] calls the model
    whether or not the button was clicked; a run that finds [processed]
    [True] calls it exactly when the button was clicked. *)
Theorem processing_trigger (w : widgets) (s : gmap string pyval)
    (src_image tar_image : UploadedFile) :
  uploaded_src w = Some src_image ->
  uploaded_tar w = Some tar_image ->
  ((s !! "processed" = None \/ s !! "processed" = Some (PBool false)) ->
   process_images_calls (trace (Home w s)) = [(src_image, tar_image)])
  /\ (s !! "processed" = Some (PBool true) ->
      process_images_calls (trace (Home w s)) =
      if button_clicked w then [(src_image, tar_image)] else []).
Proof.
  intros Ha Hb.
  assert (Hfired : processing_fires w s = true ->
            process_images_calls (trace (Home w s)) = [(src_image, tar_image)]).
  { intros Hf. rewrite Home_run, Ha, Hb, (analysis_fired _ _ _ _ Hf).
    destruct (process_and_render_run src_image tar_image (init_session s))
      as (r & s1 & t1 & -> & Hc & _ & _).
    destruct r as [[]|e].
    - destruct (comparison_run w s1) as (r2 & t2 & -> & Hc2 & _).
      destruct r2; unfold trace; cbn [snd];
        rewrite ?process_images_calls_app; cbn;
        fold (process_images_calls (t1 ++ Leave (Spinner "Processing images...") :: t2));
        rewrite process_images_calls_app, Hc; cbn;
        fold (process_images_calls t2); rewrite Hc2; reflexivity.
    - unfold trace; cbn [snd]. rewrite process_images_calls_app. cbn.
      fold (process_images_calls (t1 ++ [Leave (Spinner "Processing images...")])).
      rewrite process_images_calls_app, Hc. reflexivity. }
  split.
  - intros Hs. apply Hfired. unfold processing_fires.
    rewrite lookup_init_session.
    destruct Hs as [-> | ->]; cbn; by destruct (button_clicked w).
  - intros Hs. destruct (button_clicked w) eqn:Hc.
    + apply Hfired. unfold processing_fires.
      rewrite lookup_init_session, Hs, Hc. reflexivity.
    + assert (Hp : init_session s !! "processed" = Some (PBool true)).
      { rewrite lookup_init_session, Hs. reflexivity. }
      rewrite Home_run, Ha, Hb, (analysis_run _ _ _ _ _ Hp), Hc.
      cbn [fires truth_value negb].
      destruct (comparison_run w (init_session s)) as (r2 & t2 & -> & Hc2 & _).
      destruct r2; unfold trace; cbn [snd];
        rewrite ?process_images_calls_app; cbn;
        fold (process_images_calls t2); rewrite Hc2; reflexivity.
Qed.

(** C5. The three download buttons.  A run offers either no download or
    exactly three, and a run whose processing went through offers the
    three: the first and the third serve the uploaded source and target
    file objects themselves; the second serves, under the file name
    [generated_image.png] and the type [image/png], one byte per element
    of the generated array and no image encoding: where the integer part
    of [(x + 1) / 2 * 255] lies between 0 and 255 the byte of the element
    [x] is that integer part. *)
Theorem download_buttons_serve (w : widgets) (s : gmap string pyval)
    (src_image tar_image : UploadedFile) :
  uploaded_src w = Some src_image ->
  uploaded_tar w = Some tar_image ->
  (download_buttons (trace (Home w s)) = [] \/
   exists fig ssim_value psnr_value src gen tar bytes,
     process_images src_image tar_image =
       Ok (fig, ssim_value, psnr_value, src, gen, tar) /\
     download_buttons (trace (Home w s)) =
       [("Download Source Image", FileData src_image,
         "source_image.png", "image/png");
        ("Download Generated Image", BytesData bytes,
         "generated_image.png", "image/png");
        ("Download Target Image", FileData tar_image,
         "target_image.png", "image/png")] /\
     length bytes = length (data gen) /\
     forall i x, data gen !! i = Some x ->
       exists b,
         bytes !! i = Some b /\
         forall n,
           integer_part
             (mul (div (add x (of_int 1)) (of_int 2)) (of_int 255)) n ->
           0 <= n < 256 ->
           Z.of_N (Byte.to_N b) = n)
  /\ (processing_fires w s = true ->
      outcome (Home w s) = Ok tt ->
      download_buttons (trace (Home w s)) <> []).
Proof.
  intros Ha Hb. split.
  - rewrite Home_run, Ha, Hb.
    assert (Hp : is_Some (init_session s !! "processed")).
    { rewrite lookup_init_session. destruct (s !! "processed"); eauto. }
    destruct Hp as [p Hp].
    destruct (analysis_general w src_image tar_image _ _ Hp)
      as (r & s' & t & -> & _ & _ & Hd).
    assert (Ht : download_buttons (header ++ t ++ footer) = download_buttons t).
    { rewrite !download_buttons_app. cbn. apply app_nil_r. }
    assert (Ht' : download_buttons (header ++ t) = download_buttons t).
    { rewrite download_buttons_app. reflexivity. }
    destruct r; unfold trace; cbn [snd]; rewrite ?Ht, ?Ht'.
    all: destruct Hd as [Hd|(fig & x & y & A & B & C & Hok & Hd)];
      [by left|right].
    all: exists fig, x, y, A, B, C, (map raw_pixel_byte (data B));
      split; [exact Hok|]; split; [exact Hd|]; split; [apply length_map|].
    all: intros i z Hz; eexists; split;
      [rewrite list_lookup_fmap, Hz; reflexivity|].
    all: intros n Hn Hrange; unfold raw_pixel_byte.
    all: destruct (astype_uint8_spec
                     (mul (div (add z (of_int 1)) (of_int 2)) (of_int 255)))
      as (Hin & _ & _ & Hbyte).
    all: rewrite (byte_of_uint8_to_N _ Hbyte); by apply Hin.
  - intros Hf. rewrite Home_run, Ha, Hb, (analysis_fired _ _ _ _ Hf).
    destruct (process_and_render_run src_image tar_image (init_session s))
      as (r & s1 & t1 & -> & _ & _ & [(e & _ & -> & _)|Hok]); [discriminate|].
    destruct Hok as (fig & x & y & A & B & C & _ & -> & Hr).
    destruct (render_results_run src_image tar_image fig x y A B C
                (assigned (init_session s) A B C))
      as (r' & t' & Hr' & _ & _ & _ & _ & Hd).
    rewrite Hr in Hr'. injection Hr' as <- <-.
    destruct r as [[]|e]; [|discriminate].
    destruct (Hd eq_refl) as [Hd' _].
    destruct (comparison w _) as [[[[]|e] s2] t2];
      unfold outcome, trace; cbn [fst snd]; intros Hout; try discriminate.
    rewrite !download_buttons_app. cbn.
    fold (download_buttons (t1 ++ Leave (Spinner "Processing images...") :: t2)).
    rewrite download_buttons_app, Hd'. discriminate.
Qed.

(** C6. The page takes its two images through two upload widgets, the
    first for the greyscale source and the second for the colour target,
    and each of them accepts the file types png, jpg and jpeg and no
    other. *)
Theorem two_upload_widgets (w : widgets) (s : gmap string pyval) :
  file_uploaders (trace (Home w s)) =
  [("Upload Source (Grayscale) Image", ["png"; "jpg"; "jpeg"]);
   ("Upload Target (Color) Image", ["png"; "jpg"; "jpeg"])].
Proof.
  rewrite Home_run.
  destruct (uploaded_src w) as [a|], (uploaded_tar w) as [b|];
    try reflexivity.
  assert (Hp : is_Some (init_session s !! "processed")).
  { rewrite lookup_init_session. destruct (s !! "processed"); eauto. }
  destruct Hp as [p Hp].
  destruct (analysis_general w a b _ _ Hp) as (r & s' & t & -> & Hu & _).
  destruct r; unfold trace; cbn [snd];
    rewrite !file_uploaders_app, Hu; reflexivity.
Qed.

(** C7. What a processing run that ends normally shows, in order: the
    comparison figure of the model, the SSIM and PSNR metrics, the figure
    with the histograms of source, generated and target, the difference
    map and the mean-difference metric, the colour channels of generated
    and target, the LAB channels of generated and target, and after them
    the figure of the comparison slider. *)
Theorem rendering_order (w : widgets) (s : gmap string pyval)
    (src_image tar_image : UploadedFile) :
  uploaded_src w = Some src_image ->
  uploaded_tar w = Some tar_image ->
  processing_fires w s = true ->
  outcome (Home w s) = Ok tt ->
  exists fig ssim_value psnr_value src gen tar diff_fig mean_diff
         gen_channels tar_channels gen_lab tar_lab img,
    process_images src_image tar_image =
      Ok (fig, ssim_value, psnr_value, src, gen, tar) /\
    plot_difference_map (rescale tar) (rescale gen) = Ok (diff_fig, mean_diff) /\
    plot_color_channels (rescale gen) "Generated Image Color Channels" =
      Ok gen_channels /\
    plot_color_channels (rescale tar) "Target Image Color Channels" =
      Ok tar_channels /\
    plot_lab_channels (rescale gen) "Generated Image in LAB Color Space" =
      Ok gen_lab /\
    plot_lab_channels (rescale tar) "Target Image in LAB Color Space" =
      Ok tar_lab /\
    displayed (trace (Home w s)) =
      [Pyplot (External fig);
       Metric "SSIM" [Field ssim_value ".4f"];
       Metric "PSNR" [Field psnr_value ".2f"; Text " dB"];
       Pyplot (Subplots 1 3 (15, 5)%nat
                 [[Histogram (rescale src) "Source"];
                  [Histogram (rescale gen) "Generated"];
                  [Histogram (rescale tar) "Target"]]);
       Pyplot (External diff_fig);
       Metric "Mean Difference" [Field mean_diff ".4f"];
       Pyplot (External gen_channels);
       Pyplot (External tar_channels);
       Pyplot (External gen_lab);
       Pyplot (External tar_lab);
       Pyplot (slider_figure img)].
Proof.
  intros Ha Hb Hf. rewrite Home_run, Ha, Hb, (analysis_fired _ _ _ _ Hf).
  destruct (process_and_render_run src_image tar_image (init_session s))
    as (r & s1 & t1 & -> & _ & _ & [(e & _ & -> & _)|Hok]); [discriminate|].
  destruct Hok as (fig & x & y & A & B & C & Hok & -> & Hr).
  destruct (render_results_run src_image tar_image fig x y A B C
              (assigned (init_session s) A B C))
    as (r' & t' & Hr' & _ & _ & _ & _ & Hd).
  rewrite Hr in Hr'. injection Hr' as <- <-.
  destruct r as [[]|e]; [|discriminate].
  destruct (Hd eq_refl)
    as (_ & diff_fig & mean_diff & f1 & f2 & f3 & f4 & E1 & E2 & E3 & E4 & E5 & Hdisp).
  rewrite comparison_assigned.
  destruct (comparison_slider_run w (assigned (init_session s) A B C))
    as (r2 & t2 & -> & _ & _ & _ & [[-> [img Him]]|[[e ->] _]]);
    [|discriminate].
  intros _. exists fig, x, y, A, B, C, diff_fig, mean_diff, f1, f2, f3, f4, img.
  repeat (split; [assumption|]).
  unfold trace; cbn [snd]. rewrite !displayed_app. cbn.
  fold (displayed (t1 ++ Leave (Spinner "Processing images...") :: t2)).
  rewrite displayed_app, Hdisp. cbn. fold (displayed t2). rewrite Him.
  reflexivity.
Qed.

(** C8. The model is run only when both images are there: in a run where
    the source upload or the target upload is missing, [process_images]
    is not called, and between the upload widgets and the footer the page
    shows the prompt asking for both uploads and nothing else. *)
Theorem no_model_without_both_uploads (w : widgets) (s : gmap string pyval) :
  uploaded_src w = None \/ uploaded_tar w = None ->
  Home w s = (Ok tt, init_session s, header ++ Info upload_prompt :: footer)
  /\ process_images_calls (trace (Home w s)) = [].
Proof.
  intros Hu. rewrite Home_run.
  destruct (uploaded_src w), (uploaded_tar w), Hu; try discriminate;
    split; reflexivity.
Qed.

(** C9. The comparison slider runs from 0.0 to 1.0 and starts at 0.5.
    For stored arrays whose elements lie between -1.0 and 1.0 the image
    it shows is the blend of line 143: the two arrays are broadcast to
    their common shape (they are taken as they are when their shapes are
    equal), and element by element the image has the value
    [((x + 1) / 2) * (1 - v) + ((y + 1) / 2) * v] for the slider value
    [v], the source element [x] and the generated element [y].  At
    [v = 0.0] the image equals the rescaled source and at [v = 1.0] the
    rescaled generated image.  No image is shown when the shapes do not
    go together, where [+] raises [ValueError], or when the blend has not
    the shape of an image, where [imshow] raises [TypeError]. *)
Theorem comparison_slider_blend (w : widgets) (s : gmap string pyval)
    (src gen : ndarray) :
  s !! "src" = Some (PArr src) ->
  s !! "gen" = Some (PArr gen) ->
  well_formed src ->
  well_formed gen ->
  Forall (fun x => in_range x = true) (data src) ->
  Forall (fun y => in_range y = true) (data gen) ->
  match broadcast_shapes (shape src) (shape gen) with
  | None =>
      comparison_slider w s =
      (Raise ValueError, s,
       [Subheader "Image Comparison Slider";
        Slider "Slide to compare original and generated images"
          zero one half])
  | Some sh =>
      let a := broadcast_to src sh in
      let b := broadcast_to gen sh in
      let img := blended (slider_value w) a b in
      comparison_slider w s =
        (if image_shape sh
         then
           (Ok tt, s,
            [Subheader "Image Comparison Slider";
             Slider "Slide to compare original and generated images"
               zero one half;
             Pyplot (slider_figure (NpArray img));
             Write [Text "Showing "; Field (slider_value w) ".0%";
                    Text " of the generated image."]])
         else
           (Raise TypeError, s,
            [Subheader "Image Comparison Slider";
             Slider "Slide to compare original and generated images"
               zero one half]))
      /\ shape img = sh
      /\ length (data img) = size_of sh
      /\ (forall i x y,
            data a !! i = Some x -> data b !! i = Some y ->
            data img !! i =
            Some (add (mul (div (add x (of_int 1)) (of_int 2))
                           (sub (of_int 1) (slider_value w)))
                      (mul (div (add y (of_int 1)) (of_int 2))
                           (slider_value w))))
      /\ (slider_value w = zero ->
          Forall2 (fun x y => eqb x y = true) (data img) (data (rescale a)))
      /\ (slider_value w = one ->
          Forall2 (fun x y => eqb x y = true) (data img) (data (rescale b)))
      /\ (shape src = shape gen -> a = src /\ b = gen)
  end.
Proof.
  intros Hs Hg Hws Hwg Hfs Hfg.
  pose proof (comparison_slider_stored w s src gen Hs Hg) as Hrun.
  destruct (broadcast_shapes (shape src) (shape gen)) as [sh|] eqn:Hsh;
    [|exact Hrun].
  assert (Hsh' : broadcast_shapes (shape gen) (shape src) = Some sh)
    by (by rewrite broadcast_shapes_comm).
  cbv zeta.
  assert (Hlen : length (data (broadcast_to src sh))
                 = length (data (broadcast_to gen sh)))
    by (by rewrite !broadcast_to_length).
  pose proof (broadcast_to_Forall _ src (shape gen) sh Hws Hsh
                (Forall_impl _ _ _ Hfs in_range_rescales)) as Hrs.
  pose proof (broadcast_to_Forall _ gen (shape src) sh Hwg Hsh'
                (Forall_impl _ _ _ Hfg in_range_rescales)) as Hrg.
  split; [exact Hrun|]. split; [reflexivity|]. split.
  { unfold blended, broadcast_to. cbn [data shape].
    by rewrite zip_data_seq, length_map, length_seq. }
  split.
  { intros i x y Hx Hy. cbn [blended data].
    exact (zip_data_lookup (blend (slider_value w)) _ _ i x y Hx Hy). }
  split; [intros ->; rewrite data_rescale; by apply blended_at_zero|].
  split; [intros ->; rewrite data_rescale; by apply blended_at_one|].
  intros Hsame. rewrite <- Hsame, broadcast_shapes_same in Hsh.
  injection Hsh as <-. split; [by apply broadcast_to_own|].
  rewrite Hsame. by apply broadcast_to_own.
Qed.

End Claims.

(** ** The page at concrete runs *)

Section DemoRuns.
#[local] Existing Instance demo_module.

Lemma model_call_and_binding_witness :
  uploaded_src demo_widgets = Some demo_source_file
  /\ uploaded_tar demo_widgets = Some demo_target_file
  /\ processing_fires demo_widgets ∅ = true
  /\ process_images demo_source_file demo_target_file =
       Ok ("comparison", of_scaled 3 (-2), of_int 30,
           demo_src, demo_gen, demo_tar)
  /\ (process_images_calls (trace (Home demo_widgets ∅)) =
        [(demo_source_file, demo_target_file)]
      /\ final_state (Home demo_widgets ∅) =
           assigned (init_session ∅) demo_src demo_gen demo_tar
      /\ exists rest,
           displayed (trace (Home demo_widgets ∅)) =
           Pyplot (External "comparison")
           :: Metric "SSIM" [Field (of_scaled 3 (-2)) ".4f"]
           :: Metric "PSNR" [Field (of_int 30) ".2f"; Text " dB"]
           :: rest).
Proof.
  split; [reflexivity|]. split; [reflexivity|].
  split; [vm_compute; reflexivity|]. split; [reflexivity|].
  apply (model_call_and_binding demo_widgets ∅
           demo_source_file demo_target_file);
    [reflexivity|reflexivity|vm_compute; reflexivity|reflexivity].
Defined.

Lemma session_state_discipline_witness :
  buffers_ready demo_session = true
  /\ ((forall k, k ∉ session_keys ->
         final_state (Home demo_widgets demo_session) !! k = demo_session !! k)
      /\ (demo_session = ∅ ->
          final_state (Home demo_widgets demo_session) = default_session \/
          exists src gen tar,
            final_state (Home demo_widgets demo_session) =
            assigned default_session src gen tar)
      /\ buffers_ready (final_state (Home demo_widgets demo_session)) = true).
Proof.
  split; [vm_compute; reflexivity|].
  apply (session_state_discipline demo_widgets demo_session).
  vm_compute; reflexivity.
Defined.

Lemma processing_trigger_witness :
  uploaded_src demo_widgets = Some demo_source_file
  /\ uploaded_tar demo_widgets = Some demo_target_file
  /\ (((demo_session !! "processed" = None \/
        demo_session !! "processed" = Some (PBool false)) ->
       process_images_calls (trace (Home demo_widgets demo_session)) =
       [(demo_source_file, demo_target_file)])
      /\ (demo_session !! "processed" = Some (PBool true) ->
          process_images_calls (trace (Home demo_widgets demo_session)) =
          if button_clicked demo_widgets
          then [(demo_source_file, demo_target_file)] else [])).
Proof.
  split; [reflexivity|]. split; [reflexivity|].
  apply (processing_trigger demo_widgets demo_session); reflexivity.
Defined.

Lemma download_buttons_serve_witness :
  uploaded_src demo_widgets = Some demo_source_file
  /\ uploaded_tar demo_widgets = Some demo_target_file
  /\ ((download_buttons (trace (Home demo_widgets ∅)) = [] \/
       exists fig ssim_value psnr_value src gen tar bytes,
         process_images demo_source_file demo_target_file =
           Ok (fig, ssim_value, psnr_value, src, gen, tar) /\
         download_buttons (trace (Home demo_widgets ∅)) =
           [("Download Source Image", FileData demo_source_file,
             "source_image.png", "image/png");
            ("Download Generated Image", BytesData bytes,
             "generated_image.png", "image/png");
            ("Download Target Image", FileData demo_target_file,
             "target_image.png", "image/png")] /\
         length bytes = length (data gen) /\
         forall i x, data gen !! i = Some x ->
           exists b,
             bytes !! i = Some b /\
             forall n,
               integer_part
                 (mul (div (add x (of_int 1)) (of_int 2)) (of_int 255)) n ->
               0 <= n < 256 ->
               Z.of_N (Byte.to_N b) = n)
      /\ (processing_fires demo_widgets ∅ = true ->
          outcome (Home demo_widgets ∅) = Ok tt ->
          download_buttons (trace (Home demo_widgets ∅)) <> [])).
Proof.
  split; [reflexivity|]. split; [reflexivity|].
  apply (download_buttons_serve demo_widgets ∅); reflexivity.
Defined.

Lemma rendering_order_witness :
  uploaded_src demo_widgets = Some demo_source_file
  /\ uploaded_tar demo_widgets = Some demo_target_file
  /\ processing_fires demo_widgets ∅ = true
  /\ outcome (Home demo_widgets ∅) = Ok tt
  /\ exists fig ssim_value psnr_value src gen tar diff_fig mean_diff
            gen_channels tar_channels gen_lab tar_lab img,
       process_images demo_source_file demo_target_file =
         Ok (fig, ssim_value, psnr_value, src, gen, tar) /\
       plot_difference_map (rescale tar) (rescale gen) =
         Ok (diff_fig, mean_diff) /\
       plot_color_channels (rescale gen) "Generated Image Color Channels" =
         Ok gen_channels /\
       plot_color_channels (rescale tar) "Target Image Color Channels" =
         Ok tar_channels /\
       plot_lab_channels (rescale gen) "Generated Image in LAB Color Space" =
         Ok gen_lab /\
       plot_lab_channels (rescale tar) "Target Image in LAB Color Space" =
         Ok tar_lab /\
       displayed (trace (Home demo_widgets ∅)) =
         [Pyplot (External fig);
          Metric "SSIM" [Field ssim_value ".4f"];
          Metric "PSNR" [Field psnr_value ".2f"; Text " dB"];
          Pyplot (Subplots 1 3 (15, 5)%nat
                    [[Histogram (rescale src) "Source"];
                     [Histogram (rescale gen) "Generated"];
                     [Histogram (rescale tar) "Target"]]);
          Pyplot (External diff_fig);
          Metric "Mean Difference" [Field mean_diff ".4f"];
          Pyplot (External gen_channels);
          Pyplot (External tar_channels);
          Pyplot (External gen_lab);
          Pyplot (External tar_lab);
          Pyplot (slider_figure img)].
Proof.
  split; [reflexivity|]. split; [reflexivity|].
  split; [vm_compute; reflexivity|]. split; [vm_compute; reflexivity|].
  apply (rendering_order demo_widgets ∅ demo_source_file demo_target_file);
    [reflexivity|reflexivity|vm_compute; reflexivity|vm_compute; reflexivity].
Defined.

Lemma no_model_without_both_uploads_witness :
  (uploaded_src demo_widgets_one_upload = None \/
   uploaded_tar demo_widgets_one_upload = None)
  /\ (Home demo_widgets_one_upload ∅ =
        (Ok tt, init_session ∅, header ++ Info upload_prompt :: footer)
      /\ process_images_calls (trace (Home demo_widgets_one_upload ∅)) = []).
Proof.
  split; [right; reflexivity|].
  apply (no_model_without_both_uploads demo_widgets_one_upload ∅).
  right; reflexivity.
Defined.

Lemma comparison_slider_blend_witness :
  demo_session_rgb !! "src" = Some (PArr demo_src)
  /\ demo_session_rgb !! "gen" = Some (PArr demo_gen_rgb)
  /\ well_formed demo_src
  /\ well_formed demo_gen_rgb
  /\ Forall (fun x => in_range x = true) (data demo_src)
  /\ Forall (fun y => in_range y = true) (data demo_gen_rgb)
  /\ match broadcast_shapes (shape demo_src) (shape demo_gen_rgb) with
     | None =>
         comparison_slider demo_widgets demo_session_rgb =
         (Raise ValueError, demo_session_rgb,
          [Subheader "Image Comparison Slider";
           Slider "Slide to compare original and generated images"
             zero one half])
     | Some sh =>
         let a := broadcast_to demo_src sh in
         let b := broadcast_to demo_gen_rgb sh in
         let img := blended (slider_value demo_widgets) a b in
         comparison_slider demo_widgets demo_session_rgb =
           (if image_shape sh
            then
              (Ok tt, demo_session_rgb,
               [Subheader "Image Comparison Slider";
                Slider "Slide to compare original and generated images"
                  zero one half;
                Pyplot (slider_figure (NpArray img));
                Write [Text "Showing ";
                       Field (slider_value demo_widgets) ".0%";
                       Text " of the generated image."]])
            else
              (Raise TypeError, demo_session_rgb,
               [Subheader "Image Comparison Slider";
                Slider "Slide to compare original and generated images"
                  zero one half]))
         /\ shape img = sh
         /\ length (data img) = size_of sh
         /\ (forall i x y,
               data a !! i = Some x -> data b !! i = Some y ->
               data img !! i =
               Some (add (mul (div (add x (of_int 1)) (of_int 2))
                              (sub (of_int 1) (slider_value demo_widgets)))
                         (mul (div (add y (of_int 1)) (of_int 2))
                              (slider_value demo_widgets))))
         /\ (slider_value demo_widgets = zero ->
             Forall2 (fun x y => eqb x y = true)
               (data img) (data (rescale a)))
         /\ (slider_value demo_widgets = one ->
             Forall2 (fun x y => eqb x y = true)
               (data img) (data (rescale b)))
         /\ (shape demo_src = shape demo_gen_rgb ->
             a = demo_src /\ b = demo_gen_rgb)
     end.
Proof.
  assert (Hs : Forall (fun x => in_range x = true) (data demo_src))
    by (repeat constructor).
  assert (Hg : Forall (fun y => in_range y = true) (data demo_gen_rgb))
    by (repeat constructor).
  split; [vm_compute; reflexivity|]. split; [vm_compute; reflexivity|].
  split; [reflexivity|]. split; [reflexivity|].
  split; [exact Hs|]. split; [exact Hg|].
  apply (comparison_slider_blend demo_widgets demo_session_rgb
           demo_src demo_gen_rgb);
    [vm_compute; reflexivity|vm_compute; reflexivity
    |reflexivity|reflexivity|exact Hs|exact Hg].
Defined.
End DemoRuns.

Section FailingRuns.
#[local] Existing Instance failing_module.

Lemma model_exception_propagates_witness :
  uploaded_src demo_widgets = Some demo_source_file
  /\ uploaded_tar demo_widgets = Some demo_target_file
  /\ processing_fires demo_widgets ∅ = true
  /\ process_images demo_source_file demo_target_file =
       Raise (Error "cannot identify image file")
  /\ (Home demo_widgets ∅ =
        (Raise (Error "cannot identify image file"), init_session ∅,
         header ++ [Button "Process Images";
                    Enter (Spinner "Processing images...");
                    ProcessImages demo_source_file demo_target_file;
                    Leave (Spinner "Processing images...")])
      /\ (forall k v, (∅ : gmap string pyval) !! k = Some v ->
                      init_session ∅ !! k = Some v)
      /\ ((forall k, k ∈ session_keys ->
                     is_Some ((∅ : gmap string pyval) !! k)) ->
          init_session ∅ = ∅)).
Proof.
  split; [reflexivity|]. split; [reflexivity|].
  split; [vm_compute; reflexivity|]. split; [reflexivity|].
  apply (model_exception_propagates demo_widgets ∅
           demo_source_file demo_target_file);
    [reflexivity|reflexivity|vm_compute; reflexivity|reflexivity].
Defined.
End FailingRuns.

(** *** Some runs evaluated *)

Section Evaluated.
#[local] Existing Instance demo_module.

(** A first render, with nothing uploaded yet, initialises the four keys. *)
Example first_render_initialises :
  final_state (Home (mk_widgets None None false half) ∅) = default_session.
Proof. vm_compute. reflexivity. Qed.

(** The first run with both uploads processes them without a click. *)
Example first_upload_is_processed :
  process_images_calls (trace (Home demo_widgets default_session)) =
  [(demo_source_file, demo_target_file)].
Proof. vm_compute. reflexivity. Qed.

(** After that, a run without a click shows the slider only. *)
Example rerun_shows_slider_only :
  process_images_calls (trace (Home demo_widgets demo_session)) = []
  /\ displayed (trace (Home demo_widgets demo_session)) =
     [Pyplot (slider_figure (NpArray (blended half demo_src demo_gen)))].
Proof. split; vm_compute; reflexivity. Qed.

(** The generated image [[1.0; 0.0]] is served as the two bytes 255 and 127,
    which are no PNG stream. *)
Example generated_bytes :
  gen_img_bytes demo_gen = [xff; x7f]
  /\ take 8 (gen_img_bytes demo_gen) <> png_signature.
Proof. split; [vm_compute; reflexivity|vm_compute; discriminate]. Qed.

(** With the slider at 0.0 the demo shows the rescaled source, with the
    slider at 1.0 the rescaled generated image. *)
Example slider_end_points :
  data (blended zero demo_src demo_gen) = data (rescale demo_src)
  /\ data (blended one demo_src demo_gen) = data (rescale demo_gen).
Proof. split; vm_compute; reflexivity. Qed.

(** A [nan] in the generated buffer shows through at 0.0: the range of the
    buffers matters for the end points. *)
Example slider_nan_shows_through :
  eqb (blend zero zero S754_nan) (rescaled zero) = false.
Proof. vm_compute. reflexivity. Qed.

(** A source of one channel is broadcast against a generated image of
    three channels. *)
Example slider_broadcasts :
  broadcast add (mk_ndarray [1; 2; 1]%nat [zero; one])
                (mk_ndarray [1; 2; 3]%nat [one; one; one; zero; zero; zero])
  = Some (mk_ndarray [1; 2; 3]%nat [one; one; one; one; one; one]).
Proof. vm_compute. reflexivity. Qed.

(** The same two arrays in the slider block: the grey source shows in all
    three channels at 0.0. *)
Example slider_broadcasts_the_source :
  displayed
    (trace (comparison_slider (mk_widgets None None false zero)
              demo_session_rgb))
  = [Pyplot (slider_figure
               (NpArray (mk_ndarray [1; 2; 3]%nat
                           [zero; zero; zero;
                            of_scaled 3 (-2); of_scaled 3 (-2);
                            of_scaled 3 (-2)])))].
Proof. vm_compute. reflexivity. Qed.

(** Buffers that are no images stop the slider block at [imshow], here two
    arrays of shape (2,). *)
Example slider_flat_arrays :
  comparison_slider demo_widgets
    (assigned ∅ (mk_ndarray [2]%nat [zero; one])
                (mk_ndarray [2]%nat [one; zero]) demo_tar)
  = (Raise TypeError,
     assigned ∅ (mk_ndarray [2]%nat [zero; one])
                (mk_ndarray [2]%nat [one; zero]) demo_tar,
     [Subheader "Image Comparison Slider"; slider_event]).
Proof. vm_compute. reflexivity. Qed.

(** Elements far outside [-1, 1]: a product within int32 keeps its low
    byte, a product beyond int32 gives 0, and a negative product wraps. *)
Example bytes_outside_the_range :
  map raw_pixel_byte
    [of_int 16843007; of_int 16843009; of_int 4294967297; of_int (-3)]
  = [x80; x00; x00; x01].
Proof. vm_compute. reflexivity. Qed.

(** Buffers whose shapes do not go together stop the slider block with
    NumPy's [ValueError]; the processing has been rendered and stored by
    then. *)
Example slider_shape_mismatch :
  outcome (comparison_slider demo_widgets
             (assigned ∅ (mk_ndarray [2]%nat [zero; one])
                         (mk_ndarray [3]%nat [zero; one; half]) demo_tar))
  = Raise ValueError.
Proof. vm_compute. reflexivity. Qed.

End Evaluated.

(** ** What the pieces of the script emit *)

Section Emits.
Context `{image_colorization}.

Lemma emits_ret {A} P (a : A) : emits P (ret a).
Proof. intros s. constructor. Qed.

Lemma emits_call {A} P (r : result A) : emits P (call r).
Proof. intros s. constructor. Qed.

Lemma emits_emit P e : P e = true -> emits P (emit e).
Proof. intros He s. repeat constructor. exact He. Qed.

Lemma emits_getattr P k : emits P (getattr k).
Proof. intros s. unfold getattr. destruct (s !! k); constructor. Qed.

Lemma emits_setattr P k v : emits P (setattr k v).
Proof. intros s. constructor. Qed.

Lemma emits_bind {A B} P (m : script A) (k : A -> script B) :
  emits P m -> (forall a, emits P (k a)) -> emits P (bind m k).
Proof.
  intros Hm Hk s. specialize (Hm s). unfold bind, trace in *.
  destruct (m s) as [[[a|e] s1] t1]; cbn [snd] in *; [|exact Hm].
  specialize (Hk a s1). destruct (k a s1) as [[r s2] t2]; cbn [snd] in *.
  apply Forall_app. split; assumption.
Qed.

Lemma emits_with {A} P c (body : script A) :
  P (Enter c) = true -> P (Leave c) = true -> emits P body ->
  emits P (with_ c body).
Proof.
  intros He Hl Hb s. specialize (Hb s). unfold with_, trace in *.
  destruct (body s) as [[r s1] t1]; cbn [snd] in *.
  constructor; [exact He|]. apply Forall_app. split; [exact Hb|].
  repeat constructor. exact Hl.
Qed.

End Emits.

Ltac emits :=
  repeat first
    [ apply emits_ret
    | apply emits_call
    | apply emits_getattr
    | apply emits_setattr
    | apply emits_emit; reflexivity
    | apply emits_with; [reflexivity|reflexivity|]
    | apply emits_bind; [|intros]
    | match goal with |- emits _ (if ?b then _ else _) => destruct b end
    | match goal with |- emits _ (match ?x with _ => _ end) => destruct x end ].

Section EmitsBlocks.
Context `{image_colorization}.

Lemma render_results_emits a b fig x y A B C :
  emits block_event (render_results a b fig x y A B C).
Proof.
  unfold render_results, st_pyplot, st_subheader, st_columns, st_metric,
    st_info, st_write, st_download_button. emits.
Qed.

Lemma process_and_render_emits a b : emits block_event (process_and_render a b).
Proof.
  unfold process_and_render. emits.
Qed.

Lemma comparison_emits w : emits block_event (comparison w).
Proof.
  unfold comparison, comparison_slider, st_subheader, st_slider, st_pyplot,
    st_write. emits.
Qed.
End EmitsBlocks.


Section Frame.
Context `{image_colorization}.

Lemma emits_weaken {A} (P Q : event -> bool) (m : script A) :
  (forall e, P e = true -> Q e = true) -> emits P m -> emits Q m.
Proof.
  intros HPQ Hm s. eapply Forall_impl; [apply Hm|]. exact HPQ.
Qed.

Lemma block_is_analysis_event e : block_event e = true -> analysis_event e = true.
Proof. by destruct e. Qed.

Lemma analysis_emits w a b : emits analysis_event (analysis w a b).
Proof.
  unfold analysis, py_not, st_button.
  repeat first
    [ apply emits_ret | apply emits_call | apply emits_getattr
    | apply emits_emit; reflexivity
    | apply emits_with; [reflexivity|reflexivity|]
    | apply (emits_weaken _ _ _ block_is_analysis_event), process_and_render_emits
    | apply (emits_weaken _ _ _ block_is_analysis_event), comparison_emits
    | apply emits_bind; [|intros]
    | match goal with |- emits _ (if ?b then _ else _) => destruct b end ].
Qed.

Lemma omap_none {A B} (f : A -> option B) (P : A -> bool) (t : list A) :
  (forall e, P e = true -> f e = None) ->
  Forall (fun e => P e = true) t -> omap f t = [].
Proof.
  intros Hf Ht. induction Ht as [|e t He Ht IH]; [reflexivity|].
  cbn. rewrite (Hf e He). exact IH.
Qed.

(** The frame of the page: the header, what lies between line 47 and line
    149, and the footer when the run ends normally. *)
Lemma Home_frame w s :
  exists body,
    trace (Home w s) =
      header ++ body ++
      match outcome (Home w s) with Ok _ => footer | Raise _ => [] end
    /\ Forall (fun e => analysis_event e = true) body.
Proof.
  rewrite Home_run.
  destruct (uploaded_src w) as [a|], (uploaded_tar w) as [b|];
    try (exists [Info upload_prompt]; split; [reflexivity|repeat constructor]).
  pose proof (analysis_emits w a b (init_session s)) as Hb. unfold trace in Hb.
  destruct (analysis w a b (init_session s)) as [[[[]|e] s'] t]; cbn [snd] in Hb;
    exists t; (split; [|exact Hb]); unfold trace, outcome; cbn [fst snd].
  - reflexivity.
  - by rewrite app_nil_r.
Qed.
End Frame.

Section Extras.
Context `{image_colorization}.

Lemma default_value_is_Some k : is_Some (default_value k) <-> k ∈ session_keys.
Proof.
  unfold default_value, session_keys. rewrite !elem_of_cons, elem_of_nil.
  repeat destruct (decide _) as [->|?]; (split; [intros Hs|intros Hk]);
    eauto 10; try (by destruct Hs as [? [=]]); intuition congruence.
Qed.

(** X1. [st.set_page_config] is the first call of every run, and no run
    makes it a second time: however the run goes on and ends. *)
Theorem page_config_comes_first (w : widgets) (s : gmap string pyval) :
  exists rest,
    trace (Home w s) =
      SetPageConfig "SAR Image Colorization - Comparison" "wide" :: rest
    /\ page_configs rest = [].
Proof.
  destruct (Home_frame w s) as (body & -> & Hb).
  exists (drop 1 header ++ body ++
          match outcome (Home w s) with Ok _ => footer | Raise _ => [] end).
  split; [reflexivity|].
  unfold page_configs. rewrite !omap_app.
  rewrite (omap_none _ analysis_event body); [|by intros []|exact Hb].
  by destruct (outcome (Home w s)).
Qed.

(** X2. The footer marks a normal end: a run that ends normally has
    rendered the rule and the credits of lines 152-153 as its last two
    calls, and a run that ends with an exception has rendered no markdown
    at all. *)
Theorem footer_marks_normal_end (w : widgets) (s : gmap string pyval) :
  match outcome (Home w s) with
  | Ok _ =>
      exists before,
        trace (Home w s) =
        before ++ [Markdown "---"; Markdown "Developed by Team Horizon | Â© 2024"]
        /\ markdowns before = []
  | Raise _ => markdowns (trace (Home w s)) = []
  end.
Proof.
  destruct (Home_frame w s) as (body & Ht & Hb).
  assert (Hm : markdowns (header ++ body) = []).
  { unfold markdowns. rewrite omap_app.
    rewrite (omap_none _ analysis_event body); [reflexivity|by intros []|exact Hb]. }
  destruct (outcome (Home w s)).
  - exists (header ++ body). rewrite Ht, app_assoc. split; [reflexivity|exact Hm].
  - rewrite Ht. change (markdowns (header ++ body ++ []) = []).
    rewrite app_nil_r. exact Hm.
Qed.

(** X3. Lines 12-19 never fail and render nothing; they keep every value
    that is stored, store [False] and [None] under the keys that are
    missing, and so change nothing when they run a second time. *)
Theorem initialise_fills_and_keeps (s : gmap string pyval) :
  let s' := final_state (initialise s) in
  outcome (initialise s) = Ok tt
  /\ trace (initialise s) = []
  /\ s ⊆ s'
  /\ (forall k, s !! k = None -> s' !! k = default_value k)
  /\ (forall k, k ∈ session_keys -> is_Some (s' !! k))
  /\ final_state (initialise s') = s'.
Proof.
  cbv zeta. rewrite !initialise_run. unfold final_state, outcome, trace.
  cbn [fst snd]. repeat split.
  - apply map_subseteq_spec. intros k v Hk.
    rewrite lookup_init_session, Hk. reflexivity.
  - intros k Hk. rewrite lookup_init_session, Hk. reflexivity.
  - intros k Hk. rewrite lookup_init_session.
    destruct (s !! k); [eauto|]. by apply default_value_is_Some.
  - apply map_eq. intros k. rewrite !lookup_init_session.
    by destruct (s !! k), (default_value k).
Qed.

(** X4. A run never removes a key from the session state, and after every
    run, however it ends, the four keys of the page are there: the keys
    after the run are those before it and the four. *)
Theorem run_keeps_keys (w : widgets) (s : gmap string pyval) :
  dom (final_state (Home w s)) = dom s ∪ list_to_set session_keys.
Proof.
  assert (Hinit : dom (init_session s) = dom s ∪ list_to_set session_keys).
  { apply set_eq. intros k. rewrite elem_of_union, !elem_of_dom,
      lookup_init_session, elem_of_list_to_set, <- default_value_is_Some.
    destruct (s !! k) eqn:E; [split; eauto|].
    split; [eauto|]. intros [[? [=]]|Hk]. exact Hk. }
  destruct (Home_final_state w s) as [-> | (A & B & C & ->)]; [exact Hinit|].
  unfold assigned. rewrite !dom_insert_L, Hinit.
  apply set_eq. intros k.
  rewrite !elem_of_union, !elem_of_singleton, elem_of_list_to_set.
  unfold session_keys. rewrite !elem_of_cons. intuition eauto.
Qed.

(** X5. Beyond the defaults of lines 12-19, the session state is written
    only by a run in which both uploads are there, line 48 lets the
    processing run and [process_images] returns; the state is then the
    flag [True] and the three arrays it returned. *)
Theorem state_written_only_after_model (w : widgets) (s : gmap string pyval) :
  final_state (Home w s) = init_session s
  \/ exists src_image tar_image fig ssim_value psnr_value src gen tar,
       uploaded_src w = Some src_image
       /\ uploaded_tar w = Some tar_image
       /\ processing_fires w s = true
       /\ process_images src_image tar_image =
            Ok (fig, ssim_value, psnr_value, src, gen, tar)
       /\ final_state (Home w s) = assigned (init_session s) src gen tar.
Proof.
  rewrite Home_run.
  destruct (uploaded_src w) as [a|] eqn:Ha, (uploaded_tar w) as [b|] eqn:Hb;
    try (left; reflexivity).
  assert (Hp : is_Some (init_session s !! "processed")).
  { rewrite lookup_init_session. destruct (s !! "processed"); eauto. }
  destruct Hp as [p Hp].
  rewrite (analysis_run _ _ _ _ _ Hp).
  assert (Hf : processing_fires w s =
               match fires (button_clicked w) p with Ok b => b | Raise _ => false end).
  { unfold processing_fires. rewrite Hp. reflexivity. }
  destruct (fires (button_clicked w) p) as [[]|e].
  - destruct (process_and_render_run a b (init_session s))
      as (r & s1 & t1 & -> & _ & _ & [(e & _ & -> & -> & ->)|Hok]).
    + left. reflexivity.
    + destruct Hok as (fig & x & y & A & B & C & E & -> & _).
      right. exists a, b, fig, x, y, A, B, C.
      repeat (split; [done|]).
      destruct r as [[]|e]; [|reflexivity].
      destruct (comparison_run w (assigned (init_session s) A B C))
        as (r2 & t2 & -> & _).
      by destruct r2.
  - left. destruct (comparison_run w (init_session s)) as (r2 & t2 & -> & _).
    by destruct r2.
  - left. reflexivity.
Qed.

(** X6. Nothing is ever cleared: once [processed] is [True] it is [True]
    after every later run, and a buffer that holds an array holds an array
    after every later run. *)
Theorem processed_state_is_never_cleared (w : widgets) (s : gmap string pyval) :
  (s !! "processed" = Some (PBool true) ->
   final_state (Home w s) !! "processed" = Some (PBool true))
  /\ (forall k a, k ∈ ["src"; "gen"; "tar"] -> s !! k = Some (PArr a) ->
       exists a', final_state (Home w s) !! k = Some (PArr a')).
Proof.
  destruct (Home_final_state w s) as [-> | (A & B & C & ->)]; split.
  - intros Hs. rewrite lookup_init_session, Hs. reflexivity.
  - intros k a _ Hk. exists a. rewrite lookup_init_session, Hk. reflexivity.
  - intros _. apply lookup_assigned_processed.
  - intros k a Hk _. rewrite !elem_of_cons, elem_of_nil in Hk.
    destruct Hk as [->|[->|[->|[]]]]; eexists.
    + apply lookup_assigned_src.
    + apply lookup_assigned_gen.
    + apply lookup_assigned_tar.
Qed.

Lemma processing_fires_spec w s p :
  init_session s !! "processed" = Some p ->
  processing_fires w s =
  match fires (button_clicked w) p with Ok b => b | Raise _ => false end.
Proof. intros Hp. unfold processing_fires. rewrite Hp. reflexivity. Qed.

Lemma init_session_processed s : is_Some (init_session s !! "processed").
Proof. rewrite lookup_init_session. destruct (s !! "processed"); eauto. Qed.

(** The calls and the button of lines 48-146. *)
Lemma analysis_calls w a b s :
  process_images_calls (trace (analysis w a b (init_session s))) =
    (if processing_fires w s then [(a, b)] else [])
  /\ buttons (trace (analysis w a b (init_session s))) = ["Process Images"].
Proof.
  destruct (init_session_processed s) as [p Hp].
  rewrite (analysis_run _ _ _ _ _ Hp), (processing_fires_spec _ _ _ Hp).
  assert (Hblock : forall t : list event,
            Forall (fun e => block_event e = true) t -> buttons t = []).
  { intros t. apply omap_none. by intros []. }
  destruct (fires (button_clicked w) p) as [[]|e].
  - pose proof (process_and_render_emits a b (init_session s)) as He.
    destruct (process_and_render_run a b (init_session s))
      as (r & s1 & t1 & Hrun & Hc & _ & _).
    rewrite Hrun in *. unfold trace in He; cbn [snd] in He.
    apply Hblock in He.
    destruct r as [[]|e].
    + pose proof (comparison_emits w s1) as He2.
      destruct (comparison_run w s1) as (r2 & t2 & Hrun2 & Hc2 & _).
      rewrite Hrun2 in *. unfold trace in *; cbn [snd] in *.
      apply Hblock in He2. split.
      * change (process_images_calls
                  ((ProcessImages a b :: t1)
                   ++ Leave (Spinner "Processing images...") :: t2) = [(a, b)]).
        rewrite process_images_calls_app. cbn.
        fold (process_images_calls t1) (process_images_calls t2).
        rewrite Hc, Hc2. reflexivity.
      * change (buttons
                  ([Button "Process Images";
                    Enter (Spinner "Processing images...")]
                   ++ (ProcessImages a b :: t1)
                   ++ Leave (Spinner "Processing images...") :: t2)
                = ["Process Images"]).
        unfold buttons in *. rewrite !omap_app, He. cbn.
        fold (buttons t2). unfold buttons. rewrite He2. reflexivity.
    + unfold trace; cbn [snd]. split.
      * change (process_images_calls
                  ((ProcessImages a b :: t1)
                   ++ [Leave (Spinner "Processing images...")]) = [(a, b)]).
        rewrite process_images_calls_app. cbn.
        fold (process_images_calls t1). rewrite Hc. reflexivity.
      * change (buttons
                  ([Button "Process Images";
                    Enter (Spinner "Processing images...")]
                   ++ (ProcessImages a b :: t1)
                   ++ [Leave (Spinner "Processing images...")])
                = ["Process Images"]).
        unfold buttons in *. rewrite !omap_app, He. reflexivity.
  - pose proof (comparison_emits w (init_session s)) as He2.
    destruct (comparison_run w (init_session s)) as (r2 & t2 & Hrun2 & Hc2 & _).
    rewrite Hrun2 in *. unfold trace in *; cbn [snd] in *.
    apply Hblock in He2. split.
    + cbn. exact Hc2.
    + cbn. fold (buttons t2). rewrite He2. reflexivity.
  - split; reflexivity.
Qed.

Lemma Home_trace_both w s a b :
  uploaded_src w = Some a -> uploaded_tar w = Some b ->
  trace (Home w s) =
  header ++ trace (analysis w a b (init_session s)) ++
  match outcome (analysis w a b (init_session s)) with
  | Ok _ => footer
  | Raise _ => []
  end.
Proof.
  intros Ha Hb. rewrite Home_run, Ha, Hb.
  destruct (analysis w a b (init_session s)) as [[[[]|e] s'] t];
    unfold trace, outcome; cbn [fst snd]; [reflexivity|].
  by rewrite app_nil_r.
Qed.

(** X7. When the model is called: in every run, [process_images] is called
    at most once, and it is called exactly when both uploads are there
    and the condition of line 48 holds, with the two uploads as its
    arguments. *)
Theorem model_is_called_exactly_when (w : widgets) (s : gmap string pyval) :
  process_images_calls (trace (Home w s)) =
  match uploaded_src w, uploaded_tar w with
  | Some src_image, Some tar_image =>
      if processing_fires w s then [(src_image, tar_image)] else []
  | _, _ => []
  end.
Proof.
  destruct (uploaded_src w) as [a|] eqn:Ha, (uploaded_tar w) as [b|] eqn:Hb.
  - rewrite (Home_trace_both w s a b Ha Hb), !process_images_calls_app.
    destruct (analysis_calls w a b s) as [-> _].
    rewrite app_nil_r || idtac.
    destruct (outcome _); cbn; by rewrite app_nil_r.
  - rewrite Home_run, Ha, ?Hb. reflexivity.
  - rewrite Home_run, Ha, ?Hb. reflexivity.
  - rewrite Home_run, Ha, ?Hb. reflexivity.
Qed.

(** X8. The button "Process Images" is rendered once in every run in which
    both uploads are there, however that run ends, and in no other run. *)
Theorem button_needs_both_uploads (w : widgets) (s : gmap string pyval) :
  buttons (trace (Home w s)) =
  match uploaded_src w, uploaded_tar w with
  | Some _, Some _ => ["Process Images"]
  | _, _ => []
  end.
Proof.
  destruct (uploaded_src w) as [a|] eqn:Ha, (uploaded_tar w) as [b|] eqn:Hb.
  - rewrite (Home_trace_both w s a b Ha Hb). unfold buttons. rewrite !omap_app.
    destruct (analysis_calls w a b s) as [_ Hbt]. unfold buttons in Hbt.
    rewrite Hbt. by destruct (outcome _).
  - rewrite Home_run, Ha, ?Hb. reflexivity.
  - rewrite Home_run, Ha, ?Hb. reflexivity.
  - rewrite Home_run, Ha, ?Hb. reflexivity.
Qed.
End Extras.

(** ** The blocks of the page *)

Section Balanced.
Context `{image_colorization}.

Lemma balanced_ret {A} (a : A) : balanced (ret a).
Proof. intros s open rest. reflexivity. Qed.

Lemma balanced_call {A} (r : result A) : balanced (call r).
Proof. intros s open rest. reflexivity. Qed.

Lemma balanced_getattr k : balanced (getattr k).
Proof. intros s open rest. unfold getattr. by destruct (s !! k). Qed.

Lemma balanced_setattr k v : balanced (setattr k v).
Proof. intros s open rest. reflexivity. Qed.

Lemma balanced_contains k : balanced (contains k).
Proof. intros s open rest. reflexivity. Qed.

Lemma balanced_emit e :
  (forall open rest, nested open (e :: rest) = nested open rest) ->
  balanced (emit e).
Proof. intros He s open rest. apply He. Qed.

Lemma balanced_bind {A B} (m : script A) (k : A -> script B) :
  balanced m -> (forall a, balanced (k a)) -> balanced (bind m k).
Proof.
  intros Hm Hk s open rest. specialize (Hm s). unfold bind, trace in *.
  destruct (m s) as [[[a|e] s1] t1]; cbn [snd] in *; [|apply Hm].
  specialize (Hk a s1). destruct (k a s1) as [[r s2] t2]; cbn [snd] in *.
  rewrite <- app_assoc, Hm. apply Hk.
Qed.

Lemma balanced_with {A} c (body : script A) :
  balanced body -> balanced (with_ c body).
Proof.
  intros Hb s open rest. specialize (Hb s). unfold with_, trace in *.
  destruct (body s) as [[r s1] t1]; cbn [snd] in *.
  cbn [app nested]. rewrite <- app_assoc, Hb. cbn [app nested].
  by rewrite decide_True.
Qed.

Ltac balanced :=
  repeat first
    [ apply balanced_ret
    | apply balanced_call
    | apply balanced_getattr
    | apply balanced_setattr
    | apply balanced_contains
    | apply balanced_emit; reflexivity
    | apply balanced_with
    | apply balanced_bind; [|intros]
    | match goal with |- balanced (if ?b then _ else _) => destruct b end
    | match goal with |- balanced (match ?x with _ => _ end) => destruct x end ].

Lemma render_results_balanced a b fig x y A B C :
  balanced (render_results a b fig x y A B C).
Proof.
  unfold render_results, st_pyplot, st_subheader, st_columns, st_metric,
    st_info, st_write, st_download_button. balanced.
Qed.

Lemma analysis_balanced w a b : balanced (analysis w a b).
Proof.
  unfold analysis, py_not, st_button, process_and_render, comparison,
    comparison_slider, st_subheader, st_slider, st_pyplot, st_write.
  balanced; apply render_results_balanced.
Qed.

Lemma Home_balanced w : balanced (Home w).
Proof.
  unfold Home, initialise, if_not_in, st_set_page_config, st_title,
    st_sidebar_header, st_sidebar_info, st_sidebar_markdown, st_columns,
    st_file_uploader, st_info, st_markdown.
  balanced; apply analysis_balanced.
Qed.
End Balanced.

Section MoreExtras.
Context `{image_colorization}.

(** X9. The blocks of a run are properly nested: every column and the
    spinner that is entered is left again, innermost first, also in a run
    that an exception ends. *)
Theorem blocks_are_left_in_order (w : widgets) (s : gmap string pyval) :
  nested [] (trace (Home w s)) = true.
Proof.
  pose proof (Home_balanced w s [] []) as Hb.
  rewrite app_nil_r in Hb. exact Hb.
Qed.
End MoreExtras.

(** ** From one run to the next *)

Section Reruns.
Context `{image_colorization}.

Lemma init_session_idem s : init_session (init_session s) = init_session s.
Proof.
  apply map_eq. intros k. rewrite !lookup_init_session.
  destruct (s !! k); [reflexivity|]. by destruct (default_value k).
Qed.

(** A run sees the session state through lines 12-19 only. *)
Lemma Home_init_session w s : Home w (init_session s) = Home w s.
Proof. rewrite !Home_run, init_session_idem. reflexivity. Qed.

Lemma comparison_slider_value w w' s :
  slider_value w = slider_value w' -> comparison w s = comparison w' s.
Proof.
  intros Hv. unfold comparison, comparison_slider. rewrite Hv. reflexivity.
Qed.

Lemma init_session_assigned s A B C :
  init_session (assigned (init_session s) A B C)
  = assigned (init_session s) A B C.
Proof.
  apply map_eq. intros k. rewrite lookup_init_session.
  destruct (assigned (init_session s) A B C !! k) eqn:E; [reflexivity|].
  unfold default_value. symmetry.
  repeat case_decide; subst;
    rewrite ?lookup_assigned_processed, ?lookup_assigned_src,
      ?lookup_assigned_gen, ?lookup_assigned_tar in E; congruence.
Qed.

(** A run that meets [processed = True] and no click. *)
Lemma analysis_not_fired w a b s :
  s !! "processed" = Some (PBool true) ->
  button_clicked w = false ->
  analysis w a b s =
  match comparison_slider w s with
  | (r, s2, t2) => (r, s2, Button "Process Images" :: t2)
  end.
Proof.
  intros Hp Hc. rewrite (analysis_run _ _ _ _ _ Hp), Hc.
  cbv [fires truth_value negb comparison bind getattr call]. rewrite Hp.
  destruct (comparison_slider w s) as [[r s2] t2]. reflexivity.
Qed.

Lemma Home_state_after_model w s a b fig x y A B C :
  uploaded_src w = Some a ->
  uploaded_tar w = Some b ->
  processing_fires w s = true ->
  process_images a b = Ok (fig, x, y, A, B, C) ->
  final_state (Home w s) = assigned (init_session s) A B C.
Proof.
  intros Ha Hb Hf E.
  rewrite Home_run, Ha, Hb, (analysis_fired _ _ _ _ Hf),
    (process_and_render_ok _ _ _ _ _ _ _ _ _ E).
  destruct (render_results_run a b fig x y A B C
              (assigned (init_session s) A B C)) as (r & t & -> & _).
  destruct r as [[]|e]; [|reflexivity].
  destruct (comparison_run w (assigned (init_session s) A B C))
    as (r2 & t2 & -> & _).
  by destruct r2.
Qed.

(** X10. Once [processed] is [True], uploading other files without
    clicking the button changes nothing: two runs on the same session state
    and slider position give the same page, whatever the four uploaded
    files are. *)
Theorem rerun_ignores_the_uploads (w w' : widgets) (s : gmap string pyval) :
  s !! "processed" = Some (PBool true) ->
  button_clicked w = false ->
  button_clicked w' = false ->
  slider_value w = slider_value w' ->
  is_Some (uploaded_src w) -> is_Some (uploaded_tar w) ->
  is_Some (uploaded_src w') -> is_Some (uploaded_tar w') ->
  Home w s = Home w' s.
Proof.
  intros Hp Hc Hc' Hv [a Ha] [b Hb] [a' Ha'] [b' Hb'].
  assert (Hp' : init_session s !! "processed" = Some (PBool true))
    by (by rewrite lookup_init_session, Hp).
  rewrite !Home_run, Ha, Hb, Ha', Hb'.
  rewrite (analysis_not_fired w a b _ Hp' Hc),
    (analysis_not_fired w' a' b' _ Hp' Hc').
  unfold comparison_slider. rewrite Hv. reflexivity.
Qed.

(** X11. A run whose call of [process_images] raised leaves no mark: the
    next run goes as if the failed one had not happened, so with
    [processed] still not [True] it calls the model again by itself. *)
Theorem failed_run_leaves_no_mark (w w' : widgets) (s : gmap string pyval)
    (src_image tar_image : UploadedFile) (e : exn) :
  uploaded_src w = Some src_image ->
  uploaded_tar w = Some tar_image ->
  processing_fires w s = true ->
  process_images src_image tar_image = Raise e ->
  Home w' (final_state (Home w s)) = Home w' s.
Proof.
  intros Ha Hb Hf E.
  assert (Hs : final_state (Home w s) = init_session s).
  { rewrite Home_run, Ha, Hb, (analysis_fired _ _ _ _ Hf),
      (process_and_render_raise _ _ _ _ E). reflexivity. }
  rewrite Hs. apply Home_init_session.
Qed.

(** X12. The analysis is shown once.  After a run in which the model
    returned, however that run ended, the next run that is not started by
    the button calls no model and offers no download, and leaves the
    session state as it is: a failure of a plotting helper is not tried
    again, and moving the slider drops the metrics and the downloads. *)
Theorem analysis_is_shown_once (w w' : widgets) (s : gmap string pyval)
    (src_image tar_image : UploadedFile) (fig : Figure)
    (ssim_value psnr_value : float64) (src gen tar : ndarray) :
  uploaded_src w = Some src_image ->
  uploaded_tar w = Some tar_image ->
  processing_fires w s = true ->
  process_images src_image tar_image =
    Ok (fig, ssim_value, psnr_value, src, gen, tar) ->
  button_clicked w' = false ->
  process_images_calls (trace (Home w' (final_state (Home w s)))) = []
  /\ download_buttons (trace (Home w' (final_state (Home w s)))) = []
  /\ final_state (Home w' (final_state (Home w s))) = final_state (Home w s).
Proof.
  intros Ha Hb Hf E Hc.
  rewrite (Home_state_after_model _ _ _ _ _ _ _ _ _ _ Ha Hb Hf E).
  set (s1 := assigned (init_session s) src gen tar).
  assert (Hs1 : init_session s1 = s1) by apply init_session_assigned.
  rewrite Home_run, Hs1.
  destruct (uploaded_src w') as [a'|], (uploaded_tar w') as [b'|];
    try (repeat split; reflexivity).
  rewrite (analysis_not_fired w' a' b' s1
             (lookup_assigned_processed _ _ _ _) Hc).
  destruct (comparison_slider_run w' s1) as (r & t & -> & Hcalls & _ & Hd & _).
  destruct r as [[]|e]; unfold trace, final_state; cbn [fst snd].
  - rewrite !process_images_calls_app, !download_buttons_app.
    cbn. fold (process_images_calls t) (download_buttons t).
    rewrite Hcalls, Hd. done.
  - rewrite !process_images_calls_app, !download_buttons_app.
    cbn. fold (process_images_calls t) (download_buttons t).
    rewrite Hcalls, Hd. done.
Qed.

(** *** What every sequence of runs keeps *)

Lemma session_typed_init s :
  session_typed s = true -> session_typed (init_session s) = true.
Proof.
  unfold session_typed, is_flag, is_buffer. rewrite !lookup_init_session.
  destruct (s !! "processed") as [[]|], (s !! "src") as [[]|],
    (s !! "gen") as [[]|], (s !! "tar") as [[]|]; done.
Qed.

Lemma session_typed_assigned s A B C : session_typed (assigned s A B C) = true.
Proof.
  unfold session_typed.
  rewrite lookup_assigned_processed, lookup_assigned_src,
    lookup_assigned_gen, lookup_assigned_tar.
  reflexivity.
Qed.

(** X13. Over every sequence of runs the flag stays a [bool], each buffer
    stays [None] or an array, and [processed] is [True] only with three
    arrays stored. *)
Theorem runs_keep_the_session_typed (ws : list widgets)
    (s : gmap string pyval) :
  session_typed s = true -> buffers_ready s = true ->
  session_typed (runs ws s) = true /\ buffers_ready (runs ws s) = true.
Proof.
  revert s. induction ws as [|w ws IH]; intros s Ht Hr; [done|].
  cbn [runs]. apply IH.
  - destruct (Home_final_state w s) as [-> | (A & B & C & ->)].
    + by apply session_typed_init.
    + apply session_typed_assigned.
  - destruct (Home_final_state w s) as [-> | (A & B & C & ->)].
    + by apply buffers_ready_init.
    + apply buffers_ready_assigned.
Qed.

(** X14. The slider of a rerun fails on exactly two kinds of stored
    arrays: on shapes that do not broadcast the run ends in [ValueError]
    of [+], on shapes that broadcast to something that is no image it
    ends in [TypeError] of [imshow]; either way right after the slider,
    with no figure and no footer.  On all other stored arrays it ends
    normally and shows one figure. *)
Theorem slider_fails_exactly_on_bad_shapes (w : widgets)
    (s : gmap string pyval) (src gen : ndarray) :
  s !! "processed" = Some (PBool true) ->
  s !! "src" = Some (PArr src) ->
  s !! "gen" = Some (PArr gen) ->
  button_clicked w = false ->
  is_Some (uploaded_src w) -> is_Some (uploaded_tar w) ->
  match broadcast_shapes (shape src) (shape gen) with
  | None =>
      Home w s =
      (Raise ValueError, init_session s,
       header ++ [Button "Process Images";
                  Subheader "Image Comparison Slider"; slider_event])
  | Some sh =>
      if image_shape sh
      then
        outcome (Home w s) = Ok tt
        /\ exists img,
             displayed (trace (Home w s)) = [Pyplot (slider_figure img)]
      else
        Home w s =
        (Raise TypeError, init_session s,
         header ++ [Button "Process Images";
                    Subheader "Image Comparison Slider"; slider_event])
  end.
Proof.
  intros Hp Hs Hg Hc [a Ha] [b Hb].
  assert (Hp' : init_session s !! "processed" = Some (PBool true))
    by (by rewrite lookup_init_session, Hp).
  assert (Hs' : init_session s !! "src" = Some (PArr src))
    by (by rewrite lookup_init_session, Hs).
  assert (Hg' : init_session s !! "gen" = Some (PArr gen))
    by (by rewrite lookup_init_session, Hg).
  rewrite Home_run, Ha, Hb, (analysis_not_fired w a b _ Hp' Hc),
    (comparison_slider_stored w _ _ _ Hs' Hg').
  destruct (broadcast_shapes (shape src) (shape gen)) as [sh|];
    [|reflexivity].
  destruct (image_shape sh); [|reflexivity].
  split; [reflexivity|]. eexists. reflexivity.
Qed.

Lemma lookup_init_session_array (s : gmap string pyval) k A :
  init_session s !! k = Some (PArr A) -> s !! k = Some (PArr A).
Proof.
  rewrite lookup_init_session. destruct (s !! k); [done|].
  unfold default_value. by repeat case_decide.
Qed.

(** X15. From a session state as the page itself leaves it, a run that
    does not call the model can fail in one place only, the blend of line
    143: it ends normally, or the stored source and generated arrays
    have shapes that do not broadcast and it ends in [ValueError], or
    they broadcast to something that is no image and it ends in
    [TypeError].  No read of the session state fails, and [None + 1] is
    never evaluated. *)
Theorem run_without_model_fails_only_on_shapes (w : widgets)
    (s : gmap string pyval) :
  session_typed s = true -> buffers_ready s = true ->
  process_images_calls (trace (Home w s)) = [] ->
  outcome (Home w s) = Ok tt
  \/ exists src gen,
       s !! "src" = Some (PArr src)
       /\ s !! "gen" = Some (PArr gen)
       /\ match broadcast_shapes (shape src) (shape gen) with
          | None => outcome (Home w s) = Raise ValueError
          | Some sh =>
              image_shape sh = false /\ outcome (Home w s) = Raise TypeError
          end.
Proof.
  intros Ht Hr Hcalls.
  apply session_typed_init in Ht. apply buffers_ready_init in Hr.
  revert Hcalls. rewrite Home_run.
  destruct (uploaded_src w) as [a|], (uploaded_tar w) as [b|];
    try (intros _; left; reflexivity).
  unfold session_typed, is_flag, is_buffer, buffers_ready, not_none in Ht, Hr.
  destruct (init_session s !! "processed") as [[| [] |]|] eqn:Hp;
    try discriminate.
  - destruct (button_clicked w) eqn:Hc.
    + rewrite (analysis_run _ _ _ _ _ Hp), Hc. cbn [fires].
      destruct (process_and_render_run a b (init_session s))
        as (r & s1 & t1 & -> & _).
      destruct r as [[]|e];
        [destruct (comparison w s1) as [[[[]|?] ?] ?]|];
        intros Hcalls; cbn in Hcalls; discriminate.
    + rewrite (analysis_not_fired w a b _ Hp Hc).
      destruct (init_session s !! "src") as [[| |A]|] eqn:Hs;
        cbn in Ht, Hr; try discriminate.
      destruct (init_session s !! "gen") as [[| |B]|] eqn:Hg;
        cbn in Ht, Hr; try discriminate.
      intros _.
      rewrite (comparison_slider_stored w _ A B Hs Hg).
      apply lookup_init_session_array in Hs, Hg.
      destruct (broadcast_shapes (shape A) (shape B)) as [sh|] eqn:Hsh.
      * destruct (image_shape sh) eqn:Him; [left; reflexivity|].
        right. exists A, B. rewrite Hsh, Him. done.
      * right. exists A, B. rewrite Hsh. done.
  - rewrite (analysis_run _ _ _ _ _ Hp).
    cbv [fires truth_value negb].
    destruct (button_clicked w);
      destruct (process_and_render_run a b (init_session s))
        as (r & s1 & t1 & -> & _);
      (destruct r as [[]|e];
       [destruct (comparison w s1) as [[[[]|?] ?] ?]|];
       intros Hcalls; cbn in Hcalls; discriminate).
  - exfalso. rewrite lookup_init_session in Hp.
    by destruct (s !! "processed").
Qed.
End Reruns.

(** ** The arrays and the bytes *)

Section Arrays.
Context `{image_colorization}.


(** X17. [(a + 1) / 2] keeps the shape of [a], and on an array whose
    elements lie between -1.0 and 1.0 each of its elements is a proper
    binary64 number, neither [nan] nor an infinity. *)
Theorem rescale_of_an_image (a : ndarray) :
  well_formed a ->
  Forall (fun x => in_range x = true) (data a) ->
  shape (rescale a) = shape a
  /\ well_formed (rescale a)
  /\ Forall (fun y => valid y = true /\ is_finite y = true) (data (rescale a)).
Proof.
  intros Hwf Hin. split; [reflexivity|]. split.
  - unfold rescale, div_scalar, add_scalar.
    by repeat apply well_formed_map_array.
  - rewrite data_rescale. apply Forall_fmap.
    eapply Forall_impl; [exact Hin|].
    intros x Hx%in_range_rescales. unfold rescales in Hx. cbn.
    by apply andb_prop in Hx.
Qed.
End Arrays.

(** ** The downloads come last *)

Section Downloads.
Context `{image_colorization}.

Ltac destruct_results :=
  repeat match goal with
    | |- context [match ?c with Ok _ => _ | Raise _ => _ end] =>
        let E := fresh "E" in destruct c as [?|?] eqn:E
    | |- context [let (_, _) := ?c in _] => is_var c; destruct c
    end.

Lemma render_results_downloads a b fig x y A B C s :
  download_buttons (trace (render_results a b fig x y A B C s)) <> [] ->
  plot_histogram (rescale A) 1%nat "Source" = Ok tt
  /\ plot_histogram (rescale B) 2%nat "Generated" = Ok tt
  /\ plot_histogram (rescale C) 3%nat "Target" = Ok tt
  /\ (exists r, plot_difference_map (rescale C) (rescale B) = Ok r)
  /\ (exists f, plot_color_channels (rescale B)
                  "Generated Image Color Channels" = Ok f)
  /\ (exists f, plot_color_channels (rescale C)
                  "Target Image Color Channels" = Ok f)
  /\ (exists f, plot_lab_channels (rescale B)
                  "Generated Image in LAB Color Space" = Ok f)
  /\ (exists f, plot_lab_channels (rescale C)
                  "Target Image in LAB Color Space" = Ok f).
Proof.
  cbv [render_results bind emit ret call with_ st_pyplot st_subheader
       st_columns st_metric st_info st_write st_download_button trace].
  destruct_results.
  all: cbn.
  all: intros Hd; try (by destruct Hd).
  repeat match goal with u : unit |- _ => destruct u end.
  repeat split; eauto.
Qed.

(** X18. The download buttons are the last thing the processing renders:
    a run offers downloads only if the model and every call of the four
    plotting helpers returned; one failing helper means no download, with
    the session state already marked as processed. *)
Theorem downloads_need_every_plot (w : widgets) (s : gmap string pyval) :
  download_buttons (trace (Home w s)) <> [] ->
  exists src_image tar_image fig ssim_value psnr_value src gen tar,
    uploaded_src w = Some src_image
    /\ uploaded_tar w = Some tar_image
    /\ process_images src_image tar_image =
         Ok (fig, ssim_value, psnr_value, src, gen, tar)
    /\ plot_histogram (rescale src) 1%nat "Source" = Ok tt
    /\ plot_histogram (rescale gen) 2%nat "Generated" = Ok tt
    /\ plot_histogram (rescale tar) 3%nat "Target" = Ok tt
    /\ (exists r, plot_difference_map (rescale tar) (rescale gen) = Ok r)
    /\ (exists f, plot_color_channels (rescale gen)
                    "Generated Image Color Channels" = Ok f)
    /\ (exists f, plot_color_channels (rescale tar)
                    "Target Image Color Channels" = Ok f)
    /\ (exists f, plot_lab_channels (rescale gen)
                    "Generated Image in LAB Color Space" = Ok f)
    /\ (exists f, plot_lab_channels (rescale tar)
                    "Target Image in LAB Color Space" = Ok f).
Proof.
  rewrite Home_run.
  destruct (uploaded_src w) as [a|] eqn:Ha, (uploaded_tar w) as [b|] eqn:Hb;
    try (intros Hd; by destruct Hd).
  destruct (init_session_processed s) as [p Hp].
  rewrite (analysis_run _ _ _ _ _ Hp).
  assert (Hslider : forall s1, exists r2 t2,
            comparison w s1 = (r2, s1, t2) /\ download_buttons t2 = []).
  { intros s1. destruct (comparison_run w s1) as (r2 & t2 & E & _ & _ & Hd & _).
    eauto. }
  destruct (fires (button_clicked w) p) as [[]|e].
  - destruct (process_images a b) as [[[[[[fig x] y] A] B] C]|e] eqn:E.
    + rewrite (process_and_render_ok _ _ _ _ _ _ _ _ _ E).
      pose proof (render_results_downloads a b fig x y A B C
                    (assigned (init_session s) A B C)) as Hplots.
      destruct (render_results a b fig x y A B C _) as [[r s1] t1].
      unfold trace in Hplots; cbn [snd] in Hplots.
      intros Hd. exists a, b, fig, x, y, A, B, C.
      do 2 (split; [reflexivity|]). split; [exact E|]. apply Hplots. intros Ht1. apply Hd.
      destruct r as [[]|e].
      * destruct (Hslider s1) as (r2 & t2 & -> & Hd2).
        assert (Hall : forall t : list event,
                  download_buttons
                    (header ++ (Button "Process Images"
                       :: Enter (Spinner "Processing images...")
                       :: (ProcessImages a b :: t1)
                          ++ Leave (Spinner "Processing images...") :: t2)
                       ++ t)
                  = download_buttons t).
        { intros t. rewrite !download_buttons_app. cbn.
          fold (download_buttons (t1 ++ Leave (Spinner "Processing images...") :: t2)).
          rewrite download_buttons_app, Ht1. cbn. fold (download_buttons t2).
          by rewrite Hd2. }
        destruct r2; unfold trace; cbn [snd].
        -- apply Hall.
        -- rewrite <- (app_nil_r (_ :: _)). apply (Hall []).
      * unfold trace; cbn [snd]. rewrite download_buttons_app. cbn.
        fold (download_buttons (t1 ++ [Leave (Spinner "Processing images...")])).
        rewrite download_buttons_app, Ht1. reflexivity.
    + rewrite (process_and_render_raise _ _ _ _ E). intros Hd. by destruct Hd.
  - destruct (Hslider (init_session s)) as (r2 & t2 & -> & Hd2).
    intros Hd. exfalso. apply Hd.
    destruct r2; unfold trace; cbn [snd];
      rewrite !download_buttons_app; cbn; fold (download_buttons t2);
      rewrite ?download_buttons_app, Hd2; reflexivity.
  - intros Hd. by destruct Hd.
Qed.
End Downloads.

(** ** The static parts and the prompt *)

Section Static.
Context `{image_colorization}.

Lemma analysis_not_prompt w a b : emits not_prompt (analysis w a b).
Proof.
  unfold analysis, py_not, st_button, process_and_render, render_results,
    comparison, comparison_slider, st_pyplot, st_subheader, st_columns,
    st_metric, st_info, st_write, st_download_button, st_slider.
  emits.
Qed.

(** X19. The title and the sidebar do not depend on anything: every run,
    whatever the uploads, the session state and its end, renders the title
    and the four sidebar calls of lines 21-36, once and in this order. *)
Theorem title_and_sidebar_are_static (w : widgets) (s : gmap string pyval) :
  title_and_sidebar (trace (Home w s)) =
  [Title "Image Colorization of SAR Greyscale images";
   SidebarHeader "About"; SidebarInfo about_text;
   SidebarHeader "How to Use"; SidebarMarkdown how_to_use_text].
Proof.
  destruct (Home_frame w s) as (body & -> & Hb).
  unfold title_and_sidebar. rewrite !omap_app.
  rewrite (omap_none _ analysis_event body); [|by intros []|exact Hb].
  by destruct (outcome (Home w s)).
Qed.

(** X20. The prompt of line 149 is rendered exactly in the runs in which
    an upload is missing: with both uploads no call of the page renders
    it, whatever the model and the plotting helpers do. *)
Theorem prompt_exactly_without_both_uploads (w : widgets)
    (s : gmap string pyval) :
  Info upload_prompt ∈ trace (Home w s)
  <-> uploaded_src w = None \/ uploaded_tar w = None.
Proof.
  assert (Hone : (uploaded_src w = None \/ uploaded_tar w = None) ->
                 Info upload_prompt ∈ trace (Home w s)).
  { intros Hno. rewrite Home_run.
    assert (Ht : match uploaded_src w, uploaded_tar w with
                 | Some a, Some b =>
                     match analysis w a b (init_session s) with
                     | (Ok _, s', t) => (Ok tt, s', header ++ t ++ footer)
                     | (Raise e, s', t) => (Raise e, s', header ++ t)
                     end
                 | _, _ => (Ok tt, init_session s,
                            header ++ Info upload_prompt :: footer)
                 end = (Ok tt, init_session s,
                        header ++ Info upload_prompt :: footer)).
    { destruct Hno as [-> | ->]; [reflexivity|].
      by destruct (uploaded_src w). }
    rewrite Ht. apply elem_of_app. right. apply list_elem_of_here. }
  split; [|exact Hone].
  destruct (uploaded_src w) as [a|] eqn:Ha; [|by left].
  destruct (uploaded_tar w) as [b|] eqn:Hb; [|by right].
  intros Hin. exfalso.
  rewrite (Home_trace_both w s a b Ha Hb) in Hin.
  pose proof (analysis_not_prompt w a b (init_session s)) as Hbody.
  assert (Hall : Forall (fun e => not_prompt e = true)
                   (header ++ trace (analysis w a b (init_session s)) ++
                    match outcome (analysis w a b (init_session s)) with
                    | Ok _ => footer
                    | Raise _ => []
                    end)).
  { apply Forall_app. split; [repeat constructor|].
    apply Forall_app. split; [exact Hbody|].
    destruct (outcome _); repeat constructor. }
  rewrite Forall_forall in Hall. specialize (Hall _ Hin).
  unfold not_prompt in Hall. rewrite String.eqb_refl in Hall. discriminate.
Qed.
End Static.

(** ** The further properties on the example runs *)

Section MoreDemoRuns.
#[local] Existing Instance demo_module.

Lemma rerun_ignores_the_uploads_witness :
  demo_session !! "processed" = Some (PBool true)
  /\ button_clicked demo_widgets = false
  /\ button_clicked demo_widgets_other_files = false
  /\ slider_value demo_widgets = slider_value demo_widgets_other_files
  /\ is_Some (uploaded_src demo_widgets)
  /\ is_Some (uploaded_tar demo_widgets)
  /\ is_Some (uploaded_src demo_widgets_other_files)
  /\ is_Some (uploaded_tar demo_widgets_other_files)
  /\ Home demo_widgets demo_session
     = Home demo_widgets_other_files demo_session.
Proof.
  do 4 (split; [reflexivity|]).
  do 4 (split; [eexists; reflexivity|]).
  apply (rerun_ignores_the_uploads demo_widgets demo_widgets_other_files
           demo_session);
    first [reflexivity | eexists; reflexivity].
Defined.

Lemma analysis_is_shown_once_witness :
  uploaded_src demo_widgets = Some demo_source_file
  /\ uploaded_tar demo_widgets = Some demo_target_file
  /\ processing_fires demo_widgets ∅ = true
  /\ process_images demo_source_file demo_target_file =
       Ok ("comparison", of_scaled 3 (-2), of_int 30,
           demo_src, demo_gen, demo_tar)
  /\ button_clicked demo_widgets = false
  /\ (process_images_calls
        (trace (Home demo_widgets (final_state (Home demo_widgets ∅)))) = []
      /\ download_buttons
           (trace (Home demo_widgets (final_state (Home demo_widgets ∅)))) = []
      /\ final_state (Home demo_widgets (final_state (Home demo_widgets ∅)))
         = final_state (Home demo_widgets ∅)).
Proof.
  split; [reflexivity|]. split; [reflexivity|].
  split; [vm_compute; reflexivity|]. split; [reflexivity|].
  split; [reflexivity|].
  apply (analysis_is_shown_once demo_widgets demo_widgets ∅
           demo_source_file demo_target_file
           ("comparison" : @Figure demo_module) (of_scaled 3 (-2)) (of_int 30)
           demo_src demo_gen demo_tar);
    [reflexivity|reflexivity|vm_compute; reflexivity|reflexivity|reflexivity].
Defined.

Lemma runs_keep_the_session_typed_witness :
  session_typed ∅ = true
  /\ buffers_ready ∅ = true
  /\ (session_typed (runs [demo_widgets_one_upload; demo_widgets; demo_widgets] ∅)
      = true
      /\ buffers_ready
           (runs [demo_widgets_one_upload; demo_widgets; demo_widgets] ∅)
         = true).
Proof.
  split; [reflexivity|]. split; [reflexivity|].
  apply (runs_keep_the_session_typed
           [demo_widgets_one_upload; demo_widgets; demo_widgets] ∅);
    reflexivity.
Defined.

Lemma slider_fails_exactly_on_bad_shapes_witness :
  demo_session_flat !! "processed" = Some (PBool true)
  /\ demo_session_flat !! "src" = Some (PArr demo_flat)
  /\ demo_session_flat !! "gen" = Some (PArr demo_flat)
  /\ button_clicked demo_widgets = false
  /\ is_Some (uploaded_src demo_widgets)
  /\ is_Some (uploaded_tar demo_widgets)
  /\ match broadcast_shapes (shape demo_flat) (shape demo_flat) with
     | None =>
         Home demo_widgets demo_session_flat =
         (Raise ValueError, init_session demo_session_flat,
          header ++ [Button "Process Images";
                     Subheader "Image Comparison Slider"; slider_event])
     | Some sh =>
         if image_shape sh
         then
           outcome (Home demo_widgets demo_session_flat) = Ok tt
           /\ exists img,
                displayed (trace (Home demo_widgets demo_session_flat))
                = [Pyplot (slider_figure img)]
         else
           Home demo_widgets demo_session_flat =
           (Raise TypeError, init_session demo_session_flat,
            header ++ [Button "Process Images";
                       Subheader "Image Comparison Slider"; slider_event])
     end.
Proof.
  do 4 (split; [reflexivity|]).
  do 2 (split; [eexists; reflexivity|]).
  apply (slider_fails_exactly_on_bad_shapes demo_widgets
           demo_session_flat demo_flat demo_flat);
    first [reflexivity | eexists; reflexivity].
Defined.

Lemma run_without_model_fails_only_on_shapes_witness :
  session_typed demo_session_flat = true
  /\ buffers_ready demo_session_flat = true
  /\ process_images_calls (trace (Home demo_widgets demo_session_flat)) = []
  /\ (outcome (Home demo_widgets demo_session_flat) = Ok tt
      \/ exists src gen,
           demo_session_flat !! "src" = Some (PArr src)
           /\ demo_session_flat !! "gen" = Some (PArr gen)
           /\ match broadcast_shapes (shape src) (shape gen) with
              | None =>
                  outcome (Home demo_widgets demo_session_flat)
                  = Raise ValueError
              | Some sh =>
                  image_shape sh = false
                  /\ outcome (Home demo_widgets demo_session_flat)
                     = Raise TypeError
              end).
Proof.
  split; [vm_compute; reflexivity|]. split; [vm_compute; reflexivity|].
  split; [vm_compute; reflexivity|].
  apply (run_without_model_fails_only_on_shapes demo_widgets
           demo_session_flat);
    vm_compute; reflexivity.
Defined.


Lemma rescale_of_an_image_witness :
  well_formed demo_src
  /\ Forall (fun x => in_range x = true) (data demo_src)
  /\ (shape (rescale demo_src) = shape demo_src
      /\ well_formed (rescale demo_src)
      /\ Forall (fun y => valid y = true /\ is_finite y = true)
           (data (rescale demo_src))).
Proof.
  split; [reflexivity|].
  split; [repeat constructor|].
  apply (rescale_of_an_image demo_src); [reflexivity|repeat constructor].
Defined.

Lemma downloads_need_every_plot_witness :
  download_buttons (trace (Home demo_widgets ∅)) <> []
  /\ exists src_image tar_image fig ssim_value psnr_value src gen tar,
       uploaded_src demo_widgets = Some src_image
       /\ uploaded_tar demo_widgets = Some tar_image
       /\ process_images src_image tar_image =
            Ok (fig, ssim_value, psnr_value, src, gen, tar)
       /\ plot_histogram (rescale src) 1%nat "Source" = Ok tt
       /\ plot_histogram (rescale gen) 2%nat "Generated" = Ok tt
       /\ plot_histogram (rescale tar) 3%nat "Target" = Ok tt
       /\ (exists r, plot_difference_map (rescale tar) (rescale gen) = Ok r)
       /\ (exists f, plot_color_channels (rescale gen)
                       "Generated Image Color Channels" = Ok f)
       /\ (exists f, plot_color_channels (rescale tar)
                       "Target Image Color Channels" = Ok f)
       /\ (exists f, plot_lab_channels (rescale gen)
                       "Generated Image in LAB Color Space" = Ok f)
       /\ (exists f, plot_lab_channels (rescale tar)
                       "Target Image in LAB Color Space" = Ok f).
Proof.
  split; [intros E; vm_compute in E; discriminate|].
  apply (downloads_need_every_plot demo_widgets ∅).
  intros E; vm_compute in E; discriminate.
Defined.
End MoreDemoRuns.

Section MoreFailingRuns.
#[local] Existing Instance failing_module.

Lemma failed_run_leaves_no_mark_witness :
  uploaded_src demo_widgets = Some demo_source_file
  /\ uploaded_tar demo_widgets = Some demo_target_file
  /\ processing_fires demo_widgets ∅ = true
  /\ process_images demo_source_file demo_target_file =
       Raise (Error "cannot identify image file")
  /\ Home demo_widgets (final_state (Home demo_widgets ∅))
     = Home demo_widgets ∅.
Proof.
  split; [reflexivity|]. split; [reflexivity|].
  split; [vm_compute; reflexivity|]. split; [reflexivity|].
  apply (failed_run_leaves_no_mark demo_widgets demo_widgets ∅
           demo_source_file demo_target_file
           (Error "cannot identify image file"));
    [reflexivity|reflexivity|vm_compute; reflexivity|reflexivity].
Defined.
End MoreFailingRuns.

